(** * The code execution engine of the assessment backend

    A shallow embedding of [assessment_backend/code_executor.py]: the
    language registry, the result record and the coroutines of
    [CodeExecutor], together with the part of the Python runtime they rely
    on (text and bytes, the UTF-8 codec, exceptions, [with] and [try]).

    The operating system is an explicit environment [Env]: it decides what
    [mkdtemp], the opening of a file and the spawning of a child process
    answer, how a child behaves and what the clock shows.  Every coroutine
    is a function from the state of the world to an outcome and a new
    state, so that each theorem holds for every environment.

    What the embedding takes for granted:
    - the clock is read in whole milliseconds, so that the elapsed time is
      a difference of two readings;
    - the paths that exist are absolute and resolved, links aside, and a
      name that a child uses is resolved against its working directory;
    - the compilers of the host, [javac] and [g++], remove nothing and
      leave nothing in their working directory that makes its removal
      fail; the commands that run a submitted program may remove and
      create paths anywhere, may leave what makes the removal of the
      workspace fail, and may be gone when they are to be killed;
    - the removal of the workspace fails only by what was left in it;
    - [asyncio] is the one of Python 3.11;
    - the calls of the logger change nothing and are left out. *)

From Stdlib Require Import ZArith NArith Ascii String List Bool Lia.
From Stdlib.Strings Require Import Byte.
From Stdlib Require Import DecimalString HexadecimalString.
From stdpp Require Import base option list gmap sets.

Local Open Scope N_scope.

(** ** Text and bytes *)

(** A Python [str] is a sequence of code points, a [bytes] a sequence of
    octets. *)
Abbreviation str := (list N).
Abbreviation bytes := (list byte).

(** String and bytes literals of the source (all of them are ASCII). *)
Definition lit (s : string) : str :=
  map (fun a => N_of_ascii a) (list_ascii_of_string s).

Definition blit (s : string) : bytes := list_byte_of_string s.

Module Text.

(** [str.isspace] on one code point: [_Py_ascii_whitespace] below 128,
    [_PyUnicode_IsWhitespace] above. *)
Definition isspace (c : N) : bool :=
  ((0x09 <=? c) && (c <=? 0x0D)) || ((0x1C <=? c) && (c <=? 0x20))
  || (c =? 0x85) || (c =? 0xA0) || (c =? 0x1680)
  || ((0x2000 <=? c) && (c <=? 0x200A))
  || (c =? 0x2028) || (c =? 0x2029) || (c =? 0x202F) || (c =? 0x205F)
  || (c =? 0x3000).

Fixpoint lstrip (s : str) : str :=
  match s with
  | c :: s' => if isspace c then lstrip s' else s
  | [] => []
  end.

Definition rstrip (s : str) : str := reverse (lstrip (reverse s)).

(** [s.strip()] *)
Definition strip (s : str) : str := rstrip (lstrip s).

(** A text is trimmed when neither its first nor its last code point is
    whitespace. *)
Definition trimmed (s : str) : Prop :=
  (forall c, head s = Some c -> isspace c = false) /\
  (forall c, last s = Some c -> isspace c = false).

(** [str(n)] for a non-negative integer, and lower-case hexadecimal. *)
Definition of_N (n : N) : str :=
  lit (DecimalString.NilZero.string_of_uint (N.to_uint n)).
Definition hex_of_N (n : N) : str :=
  lit (HexadecimalString.NilZero.string_of_uint (N.to_hex_uint n)).

(** [s.rfind(c)] as an option. *)
Fixpoint rfind (c : N) (s : str) : option nat :=
  match s with
  | [] => None
  | x :: s' =>
      match rfind c s' with
      | Some i => Some (S i)
      | None => if x =? c then Some O else None
      end
  end.

End Text.

(** ** The UTF-8 codec *)

Module Utf8.

Definition octet (n : N) : byte :=
  match Byte.of_N (n mod 256) with Some b => b | None => x00 end.

Definition is_surrogate (c : N) : bool := (0xD800 <=? c) && (c <=? 0xDFFF).

(** The bytes of one code point that is not a surrogate. *)
Definition encode_char (c : N) : bytes :=
  if c <? 0x80 then [octet c]
  else if c <? 0x800 then
    [octet (0xC0 + c / 64); octet (0x80 + c mod 64)]
  else if c <? 0x10000 then
    [octet (0xE0 + c / 4096); octet (0x80 + (c / 64) mod 64);
     octet (0x80 + c mod 64)]
  else
    [octet (0xF0 + c / 262144); octet (0x80 + (c / 4096) mod 64);
     octet (0x80 + (c / 64) mod 64); octet (0x80 + c mod 64)].

(** The length of the run of surrogates a text starts with. *)
Fixpoint surrogate_run (s : str) : nat :=
  match s with
  | c :: s' => if is_surrogate c then S (surrogate_run s') else O
  | [] => O
  end.

(** The failure of the strict encoder: the offending code point and the
    positions [start, stop) of the run of surrogates. *)
Record encode_error := { ee_char : N; ee_start : nat; ee_stop : nat }.

(** [s.encode('utf-8')] with the default strict error handler, [pos]
    being the index of the head of [s] in the whole text. *)
Fixpoint encode_from (pos : nat) (s : str) : encode_error + bytes :=
  match s with
  | [] => inr []
  | c :: s' =>
      if is_surrogate c then
        inl {| ee_char := c; ee_start := pos;
               ee_stop := pos + S (surrogate_run s') |}
      else
        match encode_from (S pos) s' with
        | inr bs => inr (encode_char c ++ bs)
        | inl e => inl e
        end
  end.

Definition encode (s : str) : encode_error + bytes := encode_from O s.

(** What the decoder finds in its input: a code point, or a malformed
    span of [len] bytes starting with the byte [b]. *)
Inductive reason := InvalidStart | InvalidContinuation | UnexpectedEnd.
Inductive piece :=
| Char (c : N)
| Malformed (b : byte) (len : nat) (why : reason).

Definition is_cont (b : N) : bool := (0x80 <=? b) && (b <? 0xC0).

(** The scanning loop of the decoder ([utf8_decode] and the error spans
    that [unicode_decode_utf8] derives from it): an invalid start byte
    spans one byte, an invalid continuation byte at offset [k] spans the
    [k] bytes before it, and a sequence cut short by the end of the input
    spans what is left. *)
Fixpoint scan (bs : bytes) : list piece :=
  match bs with
  | [] => []
  | c0 :: r1 =>
      let b0 := Byte.to_N c0 in
      if b0 <? 0x80 then Char b0 :: scan r1
      else if b0 <? 0xC2 then Malformed c0 1 InvalidStart :: scan r1
      else if b0 <? 0xE0 then
        match r1 with
        | [] => [Malformed c0 1 UnexpectedEnd]
        | c1 :: r2 =>
            let b1 := Byte.to_N c1 in
            if negb (is_cont b1)
            then Malformed c0 1 InvalidContinuation :: scan r1
            else Char (b0 * 64 + b1 - (0xC0 * 64 + 0x80)) :: scan r2
        end
      else if b0 <? 0xF0 then
        match r1 with
        | [] => [Malformed c0 1 UnexpectedEnd]
        | c1 :: r2 =>
            let b1 := Byte.to_N c1 in
            if negb (is_cont b1)
               || (if b1 <? 0xA0 then b0 =? 0xE0 else b0 =? 0xED)
            then Malformed c0 1 InvalidContinuation :: scan r1
            else
              match r2 with
              | [] => [Malformed c0 2 UnexpectedEnd]
              | c2 :: r3 =>
                  let b2 := Byte.to_N c2 in
                  if negb (is_cont b2)
                  then Malformed c0 2 InvalidContinuation :: scan r2
                  else
                    Char (b0 * 4096 + b1 * 64 + b2
                          - (0xE0 * 4096 + 0x80 * 64 + 0x80)) :: scan r3
              end
        end
      else if b0 <? 0xF5 then
        match r1 with
        | [] => [Malformed c0 1 UnexpectedEnd]
        | c1 :: r2 =>
            let b1 := Byte.to_N c1 in
            if negb (is_cont b1)
               || (if b1 <? 0x90 then b0 =? 0xF0 else b0 =? 0xF4)
            then Malformed c0 1 InvalidContinuation :: scan r1
            else
              match r2 with
              | [] => [Malformed c0 2 UnexpectedEnd]
              | c2 :: r3 =>
                  let b2 := Byte.to_N c2 in
                  if negb (is_cont b2)
                  then Malformed c0 2 InvalidContinuation :: scan r2
                  else
                    match r3 with
                    | [] => [Malformed c0 3 UnexpectedEnd]
                    | c3 :: r4 =>
                        let b3 := Byte.to_N c3 in
                        if negb (is_cont b3)
                        then Malformed c0 3 InvalidContinuation :: scan r3
                        else
                          Char (b0 * 262144 + b1 * 4096 + b2 * 64 + b3
                                - (0xF0 * 262144 + 0x80 * 4096
                                   + 0x80 * 64 + 0x80)) :: scan r4
                    end
              end
        end
      else Malformed c0 1 InvalidStart :: scan r1
  end.

(** The [errors] argument of [bytes.decode]. *)
Inductive errors := Strict | Ignore | Replace.

Definition REPLACEMENT_CHARACTER : N := 0xFFFD.

(** The failure of the strict decoder: where the malformed span starts. *)
Record decode_error :=
  { de_byte : byte; de_start : nat; de_len : nat; de_why : reason }.

(** What an error handler makes of the pieces, [pos] being the byte
    offset of the first piece (a well-formed sequence is the shortest
    one of its code point). *)
Fixpoint handle (h : errors) (pos : nat) (ps : list piece)
  : decode_error + str :=
  match ps with
  | [] => inr []
  | Char c :: ps' =>
      match handle h (pos + length (encode_char c)) ps' with
      | inr s => inr (c :: s)
      | inl e => inl e
      end
  | Malformed b n why :: ps' =>
      match h with
      | Strict =>
          inl {| de_byte := b; de_start := pos; de_len := n; de_why := why |}
      | Ignore => handle h (pos + n) ps'
      | Replace =>
          match handle h (pos + n) ps' with
          | inr s => inr (REPLACEMENT_CHARACTER :: s)
          | inl e => inl e
          end
      end
  end.

(** [bs.decode('utf-8', errors=h)] *)
Definition decode (h : errors) (bs : bytes) : decode_error + str :=
  handle h O (scan bs).

(** The code points of the well-formed pieces, in order. *)
Fixpoint chars (ps : list piece) : str :=
  match ps with
  | [] => []
  | Char c :: ps' => c :: chars ps'
  | Malformed _ _ _ :: ps' => chars ps'
  end.

(** The same with one replacement character for each malformed span. *)
Fixpoint replaced (ps : list piece) : str :=
  match ps with
  | [] => []
  | Char c :: ps' => c :: replaced ps'
  | Malformed _ _ _ :: ps' => REPLACEMENT_CHARACTER :: replaced ps'
  end.

Definition has_malformed (ps : list piece) : bool :=
  existsb
    (fun p => match p with Malformed _ _ _ => true | Char _ => false end) ps.

End Utf8.

(** ** Exceptions *)

Inductive exn_class :=
| ValueError | KeyError | TypeError | OSError
| UnicodeEncodeError | UnicodeDecodeError
| TimeoutError          (* [asyncio.TimeoutError] *)
| CancelledError        (* [asyncio.CancelledError] *)
| KeyboardInterrupt
| OtherException (name : string).

(** An exception is known by its class and by what [str(e)] gives. *)
Record exn := { e_class : exn_class; e_str : str }.

(** [isinstance(e, Exception)]: a cancellation and a keyboard interrupt
    derive from [BaseException] only. *)
Definition is_Exception (e : exn) : bool :=
  match e_class e with
  | CancelledError | KeyboardInterrupt => false
  | _ => true
  end.

Definition is_TimeoutError (e : exn) : bool :=
  match e_class e with TimeoutError => true | _ => false end.

(** [ValueError(msg)] *)
Definition mkValueError (msg : str) : exn :=
  {| e_class := ValueError; e_str := msg |}.

(** [KeyError(k)] for a key without quotes or escapes: [str] of it is the
    [repr] of the key. *)
Definition mkKeyError (k : str) : exn :=
  {| e_class := KeyError; e_str := lit "'" ++ k ++ lit "'" |}.

(** The [UnicodeEncodeError] of the strict UTF-8 encoder. *)
Definition mkUnicodeEncodeError (e : Utf8.encode_error) : exn :=
  {| e_class := UnicodeEncodeError;
     e_str :=
       if (Utf8.ee_stop e =? S (Utf8.ee_start e))%nat then
         lit "'utf-8' codec can't encode character '\u"
         ++ Text.hex_of_N (Utf8.ee_char e) ++ lit "' in position "
         ++ Text.of_N (N.of_nat (Utf8.ee_start e))
         ++ lit ": surrogates not allowed"
       else
         lit "'utf-8' codec can't encode characters in position "
         ++ Text.of_N (N.of_nat (Utf8.ee_start e)) ++ lit "-"
         ++ Text.of_N (N.of_nat (Utf8.ee_stop e - 1))
         ++ lit ": surrogates not allowed" |}.

(** The [UnicodeDecodeError] of the strict UTF-8 decoder. *)
Definition mkUnicodeDecodeError (e : Utf8.decode_error) : exn :=
  let why :=
    match Utf8.de_why e with
    | Utf8.InvalidStart => lit "invalid start byte"
    | Utf8.InvalidContinuation => lit "invalid continuation byte"
    | Utf8.UnexpectedEnd => lit "unexpected end of data"
    end in
  {| e_class := UnicodeDecodeError;
     e_str :=
       if (Utf8.de_len e =? 1)%nat then
         lit "'utf-8' codec can't decode byte 0x"
         ++ Text.hex_of_N (Byte.to_N (Utf8.de_byte e)) ++ lit " in position "
         ++ Text.of_N (N.of_nat (Utf8.de_start e)) ++ lit ": " ++ why
       else
         lit "'utf-8' codec can't decode bytes in position "
         ++ Text.of_N (N.of_nat (Utf8.de_start e)) ++ lit "-"
         ++ Text.of_N (N.of_nat (Utf8.de_start e + Utf8.de_len e - 1))
         ++ lit ": " ++ why |}.

(** ** Values of the registry *)

(** The values a configuration dictionary holds. *)
Inductive pyval :=
| VStr (s : str)
| VInt (z : Z)
| VList (l : list str).

(** ** The operating system *)

(** How a child process ends when left alone with the given input. *)
Inductive ending :=
| Exits (rc : Z) (out err : bytes)
| Fails (e : exn)          (* the pipes break, the task is cancelled, ... *)
| Never.

(** The behaviour of a spawned child: how it ends, whether it does so
    within a timeout of so many seconds, the return code seen once it has
    been killed, what [kill()] answers when the timer has won ([Some e]
    when the child is gone by then, so that the transport has no process
    left to signal), the paths it removes, each with all below it, and
    the paths it creates, as it names them (absolute, or relative to its
    working directory, anywhere in the file system), and what it leaves in
    its working directory that makes the removal of that directory fail (a
    tree too deep to walk, a descendant that keeps writing): the error of
    the removal, and the paths below the directory that are left. *)
Record Behaviour := {
  b_run : option bytes -> ending;
  b_within : Z -> bool;
  b_killed : Z;
  b_kill : option exn;
  b_removes : list str;
  b_files : list str;
  b_blocks : option (exn * list str);
}.

(** ** Paths *)

(** The paths that exist are absolute and resolved: without a [.] or
    [..] component, links aside, so that one file has one path and
    containment is a matter of prefixes.  The directory that [mkdtemp]
    returns is such a path. *)
Definition SEP : N := 47.  (* "/" *)
Definition DOT : N := 46.  (* "." *)

(** [d / name] for a relative [name]. *)
Definition joinpath (d name : str) : str := d ++ SEP :: name.

(** The components of a path: what its separators separate. *)
Fixpoint parts (p : str) : list str :=
  match p with
  | [] => [[]]
  | c :: p' =>
      if c =? SEP then [] :: parts p'
      else
        match parts p' with
        | part :: rest => (c :: part) :: rest
        | [] => [[c]]
        end
  end.

(** The walk along the components of a path from the root: an empty
    component and [.] stay where they are, [..] goes up, and the root is
    its own parent.  [above] holds the components so far, the last one
    first. *)
Fixpoint walk (above : list str) (cs : list str) : list str :=
  match cs with
  | [] => reverse above
  | c :: cs' =>
      if bool_decide (c = [] \/ c = [DOT]) then walk above cs'
      else if bool_decide (c = [DOT; DOT]) then walk (tail above) cs'
      else walk (c :: above) cs'
  end.

(** The path that the name [p] denotes for a process whose working
    directory is [cwd]. *)
Definition resolve (cwd p : str) : str :=
  let absolute := if bool_decide (head p = Some SEP) then p
                  else joinpath cwd p in
  match walk [] (parts absolute) with
  | [] => [SEP]
  | cs => concat ((fun c => SEP :: c) <$> cs)
  end.

(** [p] is [d] or lies below it. *)
Definition inside (d p : str) : Prop := p = d \/ (d ++ [SEP]) `prefix_of` p.

#[global] Instance inside_dec d p : Decision (inside d p).
Proof. unfold inside. apply _. Defined.

(** The compilers of the registry, [javac] and [g++], by the program of a
    command line. *)
Definition is_compiler (argv : list str) : bool :=
  bool_decide (head argv = Some (lit "javac"))
  || bool_decide (head argv = Some (lit "g++")).

(** A path survives a child that removes neither it nor a directory above
    it. *)
Definition survives (cwd : str) (b : Behaviour) (p : str) : Prop :=
  Forall (fun q => ¬ inside (resolve cwd q) p) (b_removes b).

#[global] Instance survives_dec cwd b p : Decision (survives cwd b p).
Proof. unfold survives. apply _. Defined.

(** A child that removes nothing and leaves nothing in its working
    directory that stands in the way of its removal. *)
Definition tidy (b : Behaviour) : Prop :=
  b_blocks b = None /\ b_removes b = [].

(** What the world answers during one invocation.  The clock is read in
    milliseconds: [env_time k] is what the [k]-th call of [time.time()]
    shows, so that [int((t1 - t0) * 1000)] is a difference of readings.
    The commands that run a submitted program may do anything; the
    compilers are the ones of the host, which write their output, remove
    nothing and end. *)
Record Env := {
  env_mkdtemp : exn + str;
  env_open : str -> option exn;
  env_spawn : list str -> str -> exn + Behaviour;
  env_time : nat -> Z;
  env_compilers :
    forall argv cwd b,
      is_compiler argv = true -> env_spawn argv cwd = inr b -> tidy b;
}.

(** A child as it is when it removes nothing and leaves nothing in the
    way. *)
Definition tidied (b : Behaviour) : Behaviour :=
  {| b_run := b_run b;
     b_within := b_within b;
     b_killed := b_killed b;
     b_kill := b_kill b;
     b_removes := [];
     b_files := b_files b;
     b_blocks := None |}.

(** The machine with the given answers, its compilers leaving nothing in
    the way. *)
Definition machine (mkdtemp : exn + str) (open : str -> option exn)
    (spawn : list str -> str -> exn + Behaviour) (time : nat -> Z) : Env.
Proof.
  refine {| env_mkdtemp := mkdtemp;
            env_open := open;
            env_spawn := fun argv cwd =>
              match spawn argv cwd with
              | inr b => inr (if is_compiler argv then tidied b else b)
              | inl e => inl e
              end;
            env_time := time;
            env_compilers := _ |}.
  intros argv cwd b Hc H. destruct (spawn argv cwd) as [e|b0]; [discriminate|].
  rewrite Hc in H. injection H as <-. by split.
Defined.

(** What can be observed of an invocation from outside; [EvRmtree d] is
    the call that removes [d], whether it succeeds or fails. *)
Inductive event :=
| EvMkdtemp (d : str)
| EvWrite (p : str) (data : bytes)
| EvSpawn (h : nat) (argv : list str) (cwd : str)
| EvCommunicate (h : nat) (input : option bytes) (timeout : option Z)
| EvKill (h : nat)
| EvWait (h : nat)
| EvRmtree (d : str).

(** The state of the world: the paths that exist, the [returncode]
    attribute of every process object created so far ([None] until the
    exit has been observed), the number of clock readings, the events so
    far, oldest first, and the directories whose removal fails, each with
    the error of the removal and the paths below it that are left. *)
Record World := {
  fs : gset str;
  returncode : list (option Z);
  ticks : nat;
  trace : list event;
  stuck : gmap str (exn * list str);
}.

(** A process object: its index among the process objects and what the
    child does. *)
Record Process := { p_handle : nat; p_behaviour : Behaviour }.

(** ** Coroutines *)

(** A coroutine returns, raises, or never resumes. *)
Inductive outcome (A : Type) :=
| Return (a : A)
| Raise (e : exn)
| Hang.
Arguments Return {A} a.
Arguments Raise {A} e.
Arguments Hang {A}.

Definition M (A : Type) : Type := World -> outcome A * World.

Definition ret {A} (a : A) : M A := fun w => (Return a, w).
Definition raise {A} (e : exn) : M A := fun w => (Raise e, w).

Definition bind {A B} (m : M A) (k : A -> M B) : M B :=
  fun w =>
    match m w with
    | (Return a, w') => k a w'
    | (Raise e, w') => (Raise e, w')
    | (Hang, w') => (Hang, w')
    end.

Notation "x <- m ;; k" := (bind m (fun x => k))
  (at level 63, m at next level, right associativity).
Notation "m ;;; k" := (bind m (fun _ => k))
  (at level 63, right associativity).

(** [try: m except C as e: h e], where [catches] tells the instances of
    [C]. *)
Definition try_except {A} (m : M A) (catches : exn -> bool) (h : exn -> M A)
  : M A :=
  fun w =>
    match m w with
    | (Raise e, w') => if catches e then h e w' else (Raise e, w')
    | r => r
    end.

(** [with cm as x: body]: [exit x] runs when the body returns and when it
    raises.  When [exit x] returns, the outcome of the body is the outcome
    of the statement; when it raises, its exception is, in place of the
    value or of the exception of the body. *)
Definition with_as {A X} (enter : M X) (exit : X -> M unit)
    (body : X -> M A) : M A :=
  fun w =>
    match enter w with
    | (Return x, w1) =>
        match body x w1 with
        | (Hang, w2) => (Hang, w2)
        | (r, w2) =>
            match exit x w2 with
            | (Return _, w3) => (r, w3)
            | (Raise e, w3) => (Raise e, w3)
            | (Hang, w3) => (Hang, w3)
            end
        end
    | (Raise e, w1) => (Raise e, w1)
    | (Hang, w1) => (Hang, w1)
    end.

Definition emit (ev : event) (w : World) : World :=
  {| fs := fs w; returncode := returncode w; ticks := ticks w;
     trace := trace w ++ [ev]; stuck := stuck w |}.

Definition set_fs (f : gset str) (w : World) : World :=
  {| fs := f; returncode := returncode w; ticks := ticks w;
     trace := trace w; stuck := stuck w |}.

Definition tick (w : World) : World :=
  {| fs := fs w; returncode := returncode w; ticks := S (ticks w);
     trace := trace w; stuck := stuck w |}.

Definition set_returncode (h : nat) (rc : Z) (w : World) : World :=
  {| fs := fs w; returncode := <[h := Some rc]> (returncode w);
     ticks := ticks w; trace := trace w; stuck := stuck w |}.

(** A directory is made, new and empty; a file comes to exist. *)
Definition made (d : str) (w : World) : World :=
  emit (EvMkdtemp d)
    {| fs := {[d]} ∪ fs w; returncode := returncode w; ticks := ticks w;
       trace := trace w; stuck := delete d (stuck w) |}.

Definition created (p : str) (w : World) : World :=
  set_fs ({[p]} ∪ fs w) w.

(** A child starts in [cwd]: a process object is made for it, the paths
    it removes go, the paths it creates appear, and what it leaves in
    [cwd] may block the removal of [cwd]. *)
Definition spawned (argv : list str) (cwd : str) (b : Behaviour) (w : World)
  : World :=
  emit (EvSpawn (length (returncode w)) argv cwd)
    {| fs := list_to_set (resolve cwd <$> b_files b)
             ∪ filter (survives cwd b) (fs w);
       returncode := returncode w ++ [None];
       ticks := ticks w; trace := trace w;
       stuck := match b_blocks b with
                | Some x => <[cwd := x]> (stuck w)
                | None => stuck w
                end |}.

(** [PurePath.name]: what follows the last separator. *)
Definition Path_name (p : str) : str :=
  match Text.rfind SEP p with
  | Some i => drop (S i) p
  | None => p
  end.

(** [PurePath.stem]: the name without its last suffix. *)
Definition Path_stem (p : str) : str :=
  let name := Path_name p in
  match Text.rfind DOT name with
  | Some i =>
      if ((0 <? i) && (i <? length name - 1))%nat then take i name else name
  | None => name
  end.

(** ** The Python runtime over the environment *)

(** [d[k]] on a dictionary with text keys. *)
Definition getitem {V} (d : gmap str V) (k : str) : M V :=
  match d !! k with
  | Some v => ret v
  | None => raise (mkKeyError k)
  end.

(** [f"{v}"] for a text; the other values do not occur in a format. *)
Definition format (v : pyval) : str :=
  match v with
  | VStr s => s
  | VInt z =>
      (if (z <? 0)%Z then lit "-" else []) ++ Text.of_N (Z.abs_N z)
  | VList l =>
      lit "[" ++
      concat (imap (fun i x =>
                (if (i =? 0)%nat then [] else lit ", ")
                ++ lit "'" ++ x ++ lit "'") l)
      ++ lit "]"
  end.

(** [*v] in a call: the items of a list, the characters of a text. *)
Definition unpack (v : pyval) : M (list str) :=
  match v with
  | VList l => ret l
  | VStr s => ret (map (fun c => [c]) s)
  | VInt _ =>
      raise {| e_class := TypeError;
               e_str := lit "Value after * must be an iterable, not int" |}
  end.

(** [s.encode('utf-8')] and [b.decode('utf-8', errors=h)] *)
Definition str_encode (s : str) : M bytes :=
  match Utf8.encode s with
  | inr b => ret b
  | inl e => raise (mkUnicodeEncodeError e)
  end.

Definition bytes_decode (h : Utf8.errors) (b : bytes) : M str :=
  match Utf8.decode h b with
  | inr s => ret s
  | inl e => raise (mkUnicodeDecodeError e)
  end.

(** [process.returncode] *)
Definition get_returncode (p : Process) : M (option Z) :=
  fun w => (Return (mjoin (returncode w !! p_handle p)), w).

(** [process.kill()]: the child is signalled, unless the transport has
    lost it, which raises [ProcessLookupError]. *)
Definition kill (p : Process) : M unit :=
  fun w =>
    match b_kill (p_behaviour p) with
    | Some e => (Raise e, w)
    | None => (Return tt, emit (EvKill (p_handle p)) w)
    end.

(** [await process.wait()]: the exit is observed and recorded. *)
Definition wait (p : Process) : M Z :=
  fun w =>
    let h := p_handle p in
    match mjoin (returncode w !! h) with
    | Some rc => (Return rc, emit (EvWait h) w)
    | None =>
        let rc := b_killed (p_behaviour p) in
        (Return rc, emit (EvWait h) (set_returncode h rc w))
    end.

(** [await process.communicate(input)]: without a timeout the coroutine
    resumes only when the child is gone. *)
Definition communicate (p : Process) (input : option bytes)
  : M (bytes * bytes) :=
  fun w =>
    let h := p_handle p in
    let w1 := emit (EvCommunicate h input None) w in
    match b_run (p_behaviour p) input with
    | Exits rc out err => (Return (out, err), set_returncode h rc w1)
    | Fails e => (Raise e, w1)
    | Never => (Hang, w1)
    end.

Definition asyncio_TimeoutError : exn :=
  {| e_class := TimeoutError; e_str := [] |}.

(** The integers that [loop.time() + timeout] cannot turn into a float:
    those that round to [2 ^ 1024] or more. *)
Definition too_large (t : Z) : bool := (2 ^ 1024 - 2 ^ 970 <=? t)%Z.

Definition OverflowError : exn :=
  {| e_class := OtherException "OverflowError";
     e_str := lit "int too large to convert to float" |}.

(** [await asyncio.wait_for(process.communicate(input), timeout=timeout)].
    A timeout that is not positive cancels the task before it has run.
    Otherwise the timer is set, which fails for a timeout that is no
    float, and the process is raced against it: the timer wins when the
    child does not end within [timeout] seconds. *)
Definition wait_for_communicate (p : Process) (input : option bytes)
    (timeout : pyval) : M (bytes * bytes) :=
  match timeout with
  | VInt t =>
      fun w =>
        let h := p_handle p in
        let w1 := emit (EvCommunicate h input (Some t)) w in
        if (t <=? 0)%Z then (Raise asyncio_TimeoutError, w)
        else if too_large t then (Raise OverflowError, w)
        else if b_within (p_behaviour p) t then
          match b_run (p_behaviour p) input with
          | Exits rc out err => (Return (out, err), set_returncode h rc w1)
          | Fails e => (Raise e, w1)
          | Never => (Raise asyncio_TimeoutError, w1)
          end
        else (Raise asyncio_TimeoutError, w1)
  | VStr _ =>
      raise {| e_class := TypeError;
               e_str :=
                 lit "'<=' not supported between instances of 'str' and 'int'" |}
  | VList _ =>
      raise {| e_class := TypeError;
               e_str :=
                 lit "'<=' not supported between instances of 'list' and 'int'" |}
  end.

Section Environment.

Variable env : Env.

(** [time.time()], in milliseconds. *)
Definition time_time : M Z :=
  fun w =>
    (Return (env_time env (ticks w)), tick w).

(** [tempfile.TemporaryDirectory()]: the directory is made. *)
Definition TemporaryDirectory : M str :=
  fun w =>
    match env_mkdtemp env with
    | inl e => (Raise e, w)
    | inr d => (Return d, made d w)
    end.

(** The world once [d] has gone with all it holds. *)
Definition removed (d : str) (w : World) : World :=
  emit (EvRmtree d) (set_fs (filter (fun p => ¬ inside d p) (fs w)) w).

(** The world once the removal of [d] has failed: [d] is left, with the
    paths [keep] below it. *)
Definition remaining (d : str) (keep : list str) (w : World) : World :=
  emit (EvRmtree d)
    (set_fs (filter (fun p => ¬ inside d p \/ p = d \/ p ∈ keep) (fs w)) w).

(** [TemporaryDirectory.__exit__]: the directory is removed with all it
    holds, by [shutil.rmtree] with a handler that resets the permissions
    and tries again on [PermissionError], passes on [FileNotFoundError]
    (so that a directory that is no longer there is no error) and lets
    any other error out. *)
Definition cleanup (d : str) : M unit :=
  fun w =>
    match stuck w !! d with
    | Some (e, keep) =>
        if bool_decide (d ∈ fs w) then (Raise e, remaining d keep w)
        else (Return tt, removed d w)
    | None => (Return tt, removed d w)
    end.

(** [path.write_text(text, encoding='utf-8')]: the file is opened, which
    creates it, then the text is encoded and written. *)
Definition write_text (p : str) (text : str) : M unit :=
  fun w =>
    match env_open env p with
    | Some e => (Raise e, w)
    | None =>
        let w1 := created p w in
        match Utf8.encode text with
        | inl e => (Raise (mkUnicodeEncodeError e), w1)
        | inr data => (Return tt, emit (EvWrite p data) w1)
        end
    end.

(** [await asyncio.create_subprocess_exec] on the arguments [argv] with
    [cwd=cwd] and the three standard streams piped. *)
Definition create_subprocess_exec (argv : list str) (cwd : str)
  : M Process :=
  fun w =>
    match env_spawn env argv cwd with
    | inl e => (Raise e, w)
    | inr b =>
        let h := length (returncode w) in
        (Return {| p_handle := h; p_behaviour := b |},
         spawned argv cwd b w)
    end.

End Environment.

(** ** The result record *)

(** [ExecutionResult]; [exit_code] holds what [returncode] held, which is
    [None] as long as no exit has been observed. *)
Record ExecutionResult := {
  stdout : str;
  stderr : str;
  exit_code : option Z;
  execution_time_ms : Z;
  memory_usage_mb : option Z;
  status : str;
  timeout : bool;
}.

(** ** The executor *)

Module CodeExecutor.

(** [self.languages] *)
Definition languages : gmap str (gmap str pyval) :=
  list_to_map [
    (lit "python", list_to_map [
       (lit "name", VStr (lit "Python"));
       (lit "extension", VStr (lit ".py"));
       (lit "run_command", VList [lit "python3"]);
       (lit "timeout", VInt 30);
       (lit "version_cmd", VList [lit "python3"; lit "--version"])]);
    (lit "java", list_to_map [
       (lit "name", VStr (lit "Java"));
       (lit "extension", VStr (lit ".java"));
       (lit "compile_command", VList [lit "javac"]);
       (lit "run_command", VList [lit "java"]);
       (lit "timeout", VInt 30);
       (lit "version_cmd", VList [lit "java"; lit "--version"])]);
    (lit "cpp", list_to_map [
       (lit "name", VStr (lit "C++"));
       (lit "extension", VStr (lit ".cpp"));
       (lit "compile_command", VList [lit "g++"; lit "-o"; lit "solution"]);
       (lit "run_command", VList [lit "./solution"]);
       (lit "timeout", VInt 30);
       (lit "version_cmd", VList [lit "g++"; lit "--version"])]);
    (lit "javascript", list_to_map [
       (lit "name", VStr (lit "JavaScript"));
       (lit "extension", VStr (lit ".js"));
       (lit "run_command", VList [lit "node"]);
       (lit "timeout", VInt 30);
       (lit "version_cmd", VList [lit "node"; lit "--version"])])
  ].

(** [stdin.encode('utf-8') if stdin else None] *)
Definition encode_input (stdin : str) : M (option bytes) :=
  match stdin with
  | [] => ret None
  | _ => b <- str_encode stdin ;; ret (Some b)
  end.

(** The status of a run: [returncode != 0] holds of [None] too. *)
Definition run_status (timeout_occurred : bool) (rc : option Z) : str :=
  if timeout_occurred then lit "Time Limit Exceeded"
  else if bool_decide (rc ≠ Some 0%Z) then lit "Runtime Error"
  else lit "Accepted".

(** [rc or 0] *)
Definition or_0 (rc : option Z) : Z := default 0%Z rc.

Section Methods.

Variable env : Env.

Definition _run_python (source_file stdin : str) (timeout : pyval)
    (cwd : str) : M ExecutionResult :=
  start_time <- time_time env ;;
  process <- create_subprocess_exec env [lit "python3"; source_file] cwd ;;
  r <- try_except
         (input <- encode_input stdin ;;
          oe <- wait_for_communicate process input timeout ;;
          ret (oe.1, oe.2, false))
         is_TimeoutError
         (fun _ =>
            kill process ;;;
            wait process ;;;
            ret (blit "", blit "Time Limit Exceeded", true)) ;;
  let '(stdout, stderr, timeout_occurred) := r in
  now <- time_time env ;;
  let execution_time := (now - start_time)%Z in
  rc <- get_returncode process ;;
  let status := run_status timeout_occurred rc in
  out <- bytes_decode Utf8.Ignore stdout ;;
  err <- bytes_decode Utf8.Ignore stderr ;;
  rc' <- get_returncode process ;;
  ret {| stdout := Text.strip out;
         stderr := Text.strip err;
         exit_code := Some (or_0 rc');
         execution_time_ms := execution_time;
         memory_usage_mb := None;
         status := status;
         timeout := timeout_occurred |}.

Definition _run_java (source_file stdin : str) (timeout : pyval)
    (cwd : str) : M ExecutionResult :=
  start_time <- time_time env ;;
  (* Compile *)
  compile_process <-
    create_subprocess_exec env [lit "javac"; source_file] cwd ;;
  compiled <- communicate compile_process None ;;
  let compile_stderr := compiled.2 in
  crc <- get_returncode compile_process ;;
  if bool_decide (crc ≠ Some 0%Z) then
    now <- time_time env ;;
    let execution_time := (now - start_time)%Z in
    err <- bytes_decode Utf8.Ignore compile_stderr ;;
    crc' <- get_returncode compile_process ;;
    ret {| stdout := lit "";
           stderr := err;
           exit_code := crc';
           execution_time_ms := execution_time;
           memory_usage_mb := None;
           status := lit "Compilation Error";
           timeout := false |}
  else
  (* Run *)
  let class_name := Path_stem source_file in
  process <-
    create_subprocess_exec env
      [lit "java"; lit "-cp"; cwd; class_name] cwd ;;
  r <- try_except
         (input <- encode_input stdin ;;
          oe <- wait_for_communicate process input timeout ;;
          ret (oe.1, oe.2, false))
         is_TimeoutError
         (fun _ =>
            kill process ;;;
            wait process ;;;
            ret (blit "", blit "Time Limit Exceeded", true)) ;;
  let '(stdout, stderr, timeout_occurred) := r in
  now <- time_time env ;;
  let execution_time := (now - start_time)%Z in
  rc <- get_returncode process ;;
  let status := run_status timeout_occurred rc in
  out <- bytes_decode Utf8.Ignore stdout ;;
  err <- bytes_decode Utf8.Ignore stderr ;;
  rc' <- get_returncode process ;;
  ret {| stdout := Text.strip out;
         stderr := Text.strip err;
         exit_code := Some (or_0 rc');
         execution_time_ms := execution_time;
         memory_usage_mb := None;
         status := status;
         timeout := timeout_occurred |}.

Definition _run_compiled (source_file stdin : str) (timeout : pyval)
    (cwd : str) (config : gmap str pyval) : M ExecutionResult :=
  start_time <- time_time env ;;
  (* Compile *)
  cc <- getitem config (lit "compile_command") ;;
  compile_command <- unpack cc ;;
  compile_process <-
    create_subprocess_exec env (compile_command ++ [source_file]) cwd ;;
  compiled <- communicate compile_process None ;;
  let compile_stderr := compiled.2 in
  crc <- get_returncode compile_process ;;
  if bool_decide (crc ≠ Some 0%Z) then
    now <- time_time env ;;
    let execution_time := (now - start_time)%Z in
    err <- bytes_decode Utf8.Ignore compile_stderr ;;
    crc' <- get_returncode compile_process ;;
    ret {| stdout := lit "";
           stderr := err;
           exit_code := crc';
           execution_time_ms := execution_time;
           memory_usage_mb := None;
           status := lit "Compilation Error";
           timeout := false |}
  else
  (* Run *)
  rc_ <- getitem config (lit "run_command") ;;
  run_command <- unpack rc_ ;;
  process <- create_subprocess_exec env run_command cwd ;;
  r <- try_except
         (input <- encode_input stdin ;;
          oe <- wait_for_communicate process input timeout ;;
          ret (oe.1, oe.2, false))
         is_TimeoutError
         (fun _ =>
            kill process ;;;
            wait process ;;;
            ret (blit "", blit "Time Limit Exceeded", true)) ;;
  let '(stdout, stderr, timeout_occurred) := r in
  now <- time_time env ;;
  let execution_time := (now - start_time)%Z in
  rc <- get_returncode process ;;
  let status := run_status timeout_occurred rc in
  out <- bytes_decode Utf8.Ignore stdout ;;
  err <- bytes_decode Utf8.Ignore stderr ;;
  rc' <- get_returncode process ;;
  ret {| stdout := Text.strip out;
         stderr := Text.strip err;
         exit_code := Some (or_0 rc');
         execution_time_ms := execution_time;
         memory_usage_mb := None;
         status := status;
         timeout := timeout_occurred |}.

Definition _run_javascript (source_file stdin : str) (timeout : pyval)
    (cwd : str) : M ExecutionResult :=
  start_time <- time_time env ;;
  process <- create_subprocess_exec env [lit "node"; source_file] cwd ;;
  r <- try_except
         (input <- encode_input stdin ;;
          oe <- wait_for_communicate process input timeout ;;
          ret (oe.1, oe.2, false))
         is_TimeoutError
         (fun _ =>
            kill process ;;;
            wait process ;;;
            ret (blit "", blit "Time Limit Exceeded", true)) ;;
  let '(stdout, stderr, timeout_occurred) := r in
  now <- time_time env ;;
  let execution_time := (now - start_time)%Z in
  rc <- get_returncode process ;;
  let status := run_status timeout_occurred rc in
  out <- bytes_decode Utf8.Ignore stdout ;;
  err <- bytes_decode Utf8.Ignore stderr ;;
  rc' <- get_returncode process ;;
  ret {| stdout := Text.strip out;
         stderr := Text.strip err;
         exit_code := Some (or_0 rc');
         execution_time_ms := execution_time;
         memory_usage_mb := None;
         status := status;
         timeout := timeout_occurred |}.

(** The arms of the [if]/[elif] chain of [_execute_in_temp_dir]. *)
Inductive arm :=
| ArmPython | ArmJava | ArmCompiled | ArmJavascript | ArmNotImplemented.

(** The conditions of the chain, in the order they are tested. *)
Definition arm_of (language : str) : arm :=
  if bool_decide (language = lit "python") then ArmPython
  else if bool_decide (language = lit "java") then ArmJava
  else if bool_decide (language ∈ [lit "cpp"; lit "c"]) then ArmCompiled
  else if bool_decide (language = lit "javascript") then ArmJavascript
  else ArmNotImplemented.

(** The body of the [try] of [_execute_in_temp_dir]. *)
Definition dispatch (source_file stdin : str) (timeout : pyval)
    (temp_dir : str) (config : gmap str pyval) (language : str)
  : M ExecutionResult :=
  match arm_of language with
  | ArmPython => _run_python source_file stdin timeout temp_dir
  | ArmJava => _run_java source_file stdin timeout temp_dir
  | ArmCompiled => _run_compiled source_file stdin timeout temp_dir config
  | ArmJavascript => _run_javascript source_file stdin timeout temp_dir
  | ArmNotImplemented =>
      raise (mkValueError
               (lit "Language " ++ language ++ lit " not implemented"))
  end.

(** The result both handlers build from the exception they catch. *)
Definition error_result (e : exn) (execution_time : Z) : ExecutionResult :=
  {| stdout := lit "";
     stderr := e_str e;
     exit_code := Some 1%Z;
     execution_time_ms := execution_time;
     memory_usage_mb := None;
     status := lit "Runtime Error";
     timeout := false |}.

Definition _execute_in_temp_dir (temp_dir : str)
    (config : gmap str pyval) (source_code stdin : str)
    (timeout : pyval) (language : str) : M ExecutionResult :=
  start_time <- time_time env ;;
  (* Write source code *)
  ext <- getitem config (lit "extension") ;;
  let source_file := joinpath temp_dir (lit "Solution" ++ format ext) in
  write_text env source_file source_code ;;;
  try_except
    (dispatch source_file stdin timeout temp_dir config language)
    is_Exception
    (fun e =>
       now <- time_time env ;;
       let execution_time := (now - start_time)%Z in
       ret (error_result e execution_time)).

Definition execute_code (language source_code stdin : str)
    (timeout : option Z) : M ExecutionResult :=
  match languages !! language with
  | None =>
      raise (mkValueError (lit "Unsupported language: " ++ language))
  | Some config =>
      timeout <-
        match timeout with
        | Some t => ret (VInt t)
        | None => getitem config (lit "default_timeout")
        end ;;
      (* Create temporary directory *)
      with_as (TemporaryDirectory env) cleanup
        (fun temp_dir =>
           let temp_path := temp_dir in
           try_except
             (_execute_in_temp_dir temp_path config source_code stdin
                timeout language)
             is_Exception
             (fun e => ret (error_result e 0)))
  end.

End Methods.

End CodeExecutor.

(** ** The run phase, and what an invocation meets *)

(** What the four [_run_*] coroutines do, in the same words, once their
    process has been spawned: the race, the classification, the result. *)
Definition run_phase (env : Env) (process : Process) (stdin : str)
    (timeout : pyval) (start_time : Z) : M ExecutionResult :=
  r <- try_except
         (input <- CodeExecutor.encode_input stdin ;;
          oe <- wait_for_communicate process input timeout ;;
          ret (oe.1, oe.2, false))
         is_TimeoutError
         (fun _ =>
            kill process ;;;
            wait process ;;;
            ret (blit "", blit "Time Limit Exceeded", true)) ;;
  let '(stdout, stderr, timeout_occurred) := r in
  now <- time_time env ;;
  let execution_time := (now - start_time)%Z in
  rc <- get_returncode process ;;
  let status := CodeExecutor.run_status timeout_occurred rc in
  out <- bytes_decode Utf8.Ignore stdout ;;
  err <- bytes_decode Utf8.Ignore stderr ;;
  rc' <- get_returncode process ;;
  ret {| stdout := Text.strip out;
         stderr := Text.strip err;
         exit_code := Some (CodeExecutor.or_0 rc');
         execution_time_ms := execution_time;
         memory_usage_mb := None;
         status := status;
         timeout := timeout_occurred |}.

(** The source file of an invocation in the workspace [d]. *)
Definition source_file_of (language d : str) : str :=
  match CodeExecutor.languages !! language with
  | Some config =>
      match config !! lit "extension" with
      | Some ext => joinpath d (lit "Solution" ++ format ext)
      | None => d
      end
  | None => d
  end.

(** The command line of the compiler, for the languages that have one. *)
Definition compile_argv (language d : str) : option (list str) :=
  if bool_decide (language = lit "java") then
    Some [lit "javac"; source_file_of language d]
  else if bool_decide (language = lit "cpp") then
    Some [lit "g++"; lit "-o"; lit "solution"; source_file_of language d]
  else None.

(** The command line of the run phase. *)
Definition run_argv (language d : str) : list str :=
  if bool_decide (language = lit "python") then
    [lit "python3"; source_file_of language d]
  else if bool_decide (language = lit "java") then
    [lit "java"; lit "-cp"; d; lit "Solution"]
  else if bool_decide (language = lit "cpp") then [lit "./solution"]
  else [lit "node"; source_file_of language d].

(** The compile phase of [_run_java] and [_run_compiled], in the same
    words, followed by [run] when the compiler exits with [0]. *)
Definition compile_phase (env : Env) (argv : list str) (cwd : str)
    (start_time : Z) (run : M ExecutionResult) : M ExecutionResult :=
  compile_process <- create_subprocess_exec env argv cwd ;;
  compiled <- communicate compile_process None ;;
  let compile_stderr := compiled.2 in
  crc <- get_returncode compile_process ;;
  if bool_decide (crc ≠ Some 0%Z) then
    now <- time_time env ;;
    let execution_time := (now - start_time)%Z in
    err <- bytes_decode Utf8.Ignore compile_stderr ;;
    crc' <- get_returncode compile_process ;;
    ret {| stdout := lit "";
           stderr := err;
           exit_code := crc';
           execution_time_ms := execution_time;
           memory_usage_mb := None;
           status := lit "Compilation Error";
           timeout := false |}
  else run.

(** The two phases every registered language goes through. *)
Definition staged (env : Env) (language stdin : str) (timeout : pyval)
    (d : str) : M ExecutionResult :=
  start_time <- time_time env ;;
  match compile_argv language d with
  | None =>
      process <- create_subprocess_exec env (run_argv language d) d ;;
      run_phase env process stdin timeout start_time
  | Some argv =>
      compile_phase env argv d start_time
        (process <- create_subprocess_exec env (run_argv language d) d ;;
         run_phase env process stdin timeout start_time)
  end.

(** The workspace [d] is made and receives the source file. *)
Definition workspace_ready (env : Env) (language source_code d : str) : Prop :=
  env_mkdtemp env = inr d /\
  env_open env (source_file_of language d) = None /\
  exists data, Utf8.encode source_code = inr data.

(** The compiler, when the language has one, starts and exits with [0]. *)
Definition compiles (env : Env) (language d : str) : Prop :=
  match compile_argv language d with
  | None => True
  | Some argv =>
      exists cb out err,
        env_spawn env argv d = inr cb /\ b_run cb None = Exits 0 out err
  end.


(** What [communicate] receives: [None] for an empty [stdin]. *)
Definition input_bytes (stdin : str) (data : bytes) : option bytes :=
  match stdin with [] => None | _ => Some data end.

(** The invocation gets as far as the race of the run phase: the workspace
    is ready, the program compiles, the run command starts a child that
    behaves as [b], and [stdin] encodes to [data]. *)
Definition reaches_run_phase (env : Env) (language source_code stdin d : str)
    (b : Behaviour) (data : bytes) : Prop :=
  is_Some (CodeExecutor.languages !! language) /\
  workspace_ready env language source_code d /\
  compiles env language d /\
  env_spawn env (run_argv language d) d = inr b /\
  Utf8.encode stdin = inr data.

(** The world when the dispatch begins: the workspace is made, the clock
    has been read once, the source file is written. *)
Definition prepared (language d : str) (data : bytes) (w : World) : World :=
  emit (EvWrite (source_file_of language d) data)
    (created (source_file_of language d) (tick (made d w))).

(** How the workspace [d] is left when what was done in it has ended
    with [o] in the world [w]: [d] is removed, and a failure of the
    removal takes the place of [o]. *)
Definition leaving {A} (d : str) (o : outcome A) (w : World)
  : outcome A * World :=
  match o with
  | Hang => (Hang, w)
  | _ =>
      match cleanup d w with
      | (Return _, w') => (o, w')
      | (Raise e, w') => (Raise e, w')
      | (Hang, w') => (Hang, w')
      end
  end.

(** The world once a child started from [w] by [argv] has been seen to
    exit with [rc]. *)
Definition exited (argv : list str) (cwd : str) (b : Behaviour) (rc : Z)
    (w : World) : World :=
  set_returncode (length (returncode w)) rc
    (emit (EvCommunicate (length (returncode w)) None None)
       (spawned argv cwd b w)).

(** The world when the run command is about to be spawned: the clock has
    been read and the compiler, if any, has exited with [0]. *)
Definition before_run (env : Env) (language d : str) (w : World) : World :=
  match compile_argv language d with
  | None => tick w
  | Some argv =>
      match env_spawn env argv d with
      | inr cb => exited argv d cb 0 (tick w)
      | inl _ => tick w
      end
  end.

(** The text of a stream: decoded, the malformed spans left out, and
    trimmed. *)
Definition text_of (b : bytes) : str := Text.strip (Utf8.chars (Utf8.scan b)).

(** The timer of [t] seconds can be set, and the child ends within
    [t] seconds by exiting with [rc], having written [out] and [err]. *)
Definition ends_in_time (b : Behaviour) (input : option bytes) (t : Z)
    (rc : Z) (out err : bytes) : Prop :=
  (0 < t)%Z /\ too_large t = false /\
  b_within b t = true /\ b_run b input = Exits rc out err.









(** The events of spawning, and the events of an invocation. *)
Definition is_spawn (ev : event) : bool :=
  match ev with EvSpawn _ _ _ => true | _ => false end.

Definition events_since (w w' : World) : list event :=
  drop (length (trace w)) (trace w').

(** The status as the specification derives it from the two facts of a
    run: whether it timed out, and the exit code. *)
Definition derive_status (timedOut : bool) (exitCode : Z) : str :=
  if timedOut then lit "Time Limit Exceeded"
  else if negb (exitCode =? 0)%Z then lit "Runtime Error"
  else lit "Accepted".


(** Permissive decoding as the specification words it: each malformed
    span becomes one replacement character. *)
Definition decode_replacing (b : bytes) : M str :=
  bytes_decode Utf8.Replace b.

(** ** Sample environments *)

Module Examples.

Definition w0 : World :=
  {| fs := ∅; returncode := []; ticks := 0; trace := []; stuck := ∅ |}.

Definition tmp : str := lit "/tmp/tmpk3v9x_2a".

Definition clock (k : nat) : Z := (Z.of_nat k * 7)%Z.

(** A child that ends at once, having created the paths [files]. *)
Definition child (rc : Z) (out err : bytes) (files : list str) : Behaviour :=
  {| b_run := fun _ => Exits rc out err;
     b_within := fun _ => true;
     b_killed := (-9)%Z;
     b_kill := None;
     b_removes := [];
     b_files := files;
     b_blocks := None |}.

(** A child in an endless loop. *)
Definition looping : Behaviour :=
  {| b_run := fun _ => Never;
     b_within := fun _ => false;
     b_killed := (-9)%Z;
     b_kill := None;
     b_removes := [];
     b_files := [];
     b_blocks := None |}.

(** A machine on which the workspace can be made and written to. *)
Definition env_of (spawn : list str -> str -> exn + Behaviour) : Env :=
  machine (inr tmp) (fun _ => None) spawn clock.

(** The scratch storage is full. *)
Definition ENOSPC : exn :=
  {| e_class := OSError;
     e_str := lit "[Errno 28] No space left on device: '/tmp/tmpk3v9x_2a'" |}.

Definition env_full : Env :=
  machine (inl ENOSPC) (fun _ => None) (fun _ _ => inr (child 0 [] [] []))
    clock.

(** No interpreter is installed. *)
Definition ENOENT : exn :=
  {| e_class := OSError;
     e_str := lit "[Errno 2] No such file or directory: 'python3'" |}.




(** The program prints [42] and exits with [3]. *)
Definition env_exit_3 : Env :=
  env_of (fun _ _ => inr (child 3 (blit "42" ++ [x0a]) [] [])).


(** The program prints a byte that starts no UTF-8 sequence, then [a]. *)
Definition env_latin1 : Env :=
  env_of (fun _ _ => inr (child 0 [xff; x61] [] [])).






(** The program writes a file next to its workspace and leaves a
    descendant that keeps writing to a file in the workspace, which is
    not empty when it is to be removed. *)
Definition ENOTEMPTY : exn :=
  {| e_class := OSError;
     e_str := lit "[Errno 39] Directory not empty: '/tmp/tmpk3v9x_2a'" |}.

Definition forking : Behaviour :=
  {| b_run := fun _ => Exits 0 [] [];
     b_within := fun _ => true;
     b_killed := (-9)%Z;
     b_kill := None;
     b_removes := [];
     b_files := [lit "out.log"; lit "../escaped"];
     b_blocks := Some (ENOTEMPTY, [joinpath tmp (lit "out.log")]) |}.

Definition env_forking : Env := env_of (fun _ _ => inr forking).

(** The compiler leaves the binary [solution], which prints [42]. *)
Definition env_cpp : Env :=
  env_of (fun argv _ =>
            if bool_decide (head argv = Some (lit "g++")) then
              inr (child 0 [] [] [lit "solution"])
            else inr (child 0 (blit "42" ++ [x0a]) [] [])).

End Examples.

(** ** The availability probe *)

Module Probe.
Import CodeExecutor.

(** [s.split(sep)] for a separator [sep] of one character. *)
Fixpoint split (sep : N) (s : str) : list str :=
  match s with
  | [] => [[]]
  | c :: s' =>
      if c =? sep then [] :: split sep s'
      else
        match split sep s' with
        | field :: fields => (c :: field) :: fields
        | [] => [[c]]
        end
  end.

(** [l[i]] on a list. *)
Definition list_getitem {A} (l : list A) (i : nat) : M A :=
  match l !! i with
  | Some x => ret x
  | None =>
      raise {| e_class := OtherException "IndexError";
               e_str := lit "list index out of range" |}
  end.

(** The keys of [self.languages] in the order of the dictionary, and
    [self.languages.items()]. *)
Definition language_keys : list str :=
  [lit "python"; lit "java"; lit "cpp"; lit "javascript"].

Definition items : list (str * gmap str pyval) :=
  omap (fun key => pair key <$> languages !! key) language_keys.

(** One dictionary of the list that [get_supported_languages] returns. *)
Record LanguageInfo := {
  li_id : Z;
  li_name : pyval;
  li_key : str;
  li_version : str;
  li_timeout_seconds : pyval;
  li_memory_limit_mb : Z;
  li_available : bool;
}.

Definition LF : N := 10.  (* the line feed *)

Section Methods.

Variable env : Env.

(** The working directory of the server, which a child started without
    [cwd] inherits. *)
Variable server_cwd : str.

(** The [try] statement of the loop of [get_supported_languages]: the
    version and the availability of one language.  The bare [except]
    catches every exception. *)
Definition probe (config : gmap str pyval) : M (str * bool) :=
  try_except
    (vc <- getitem config (lit "version_cmd") ;;
     version_cmd <- unpack vc ;;
     process <- create_subprocess_exec env version_cmd server_cwd ;;
     oe <- wait_for_communicate process None (VInt 5) ;;
     let stdout := oe.1 in
     rc <- get_returncode process ;;
     if bool_decide (rc = Some 0%Z) then
       text <- bytes_decode Utf8.Strict stdout ;;
       version <- list_getitem (split LF (Text.strip text)) 0 ;;
       ret (version, true)
     else ret (lit "Not available", false))
    (fun _ => true)
    (fun _ => ret (lit "Not available", false)).

(** The loop over [enumerate(self.languages.items())], [i] being the
    index of the first of [its], and [languages] the list so far. *)
Fixpoint probe_each (i : nat) (its : list (str * gmap str pyval))
    (languages : list LanguageInfo) : M (list LanguageInfo) :=
  match its with
  | [] => ret languages
  | (key, config) :: its' =>
      va <- probe config ;;
      name <- getitem config (lit "name") ;;
      timeout_seconds <- getitem config (lit "timeout") ;;
      probe_each (S i) its'
        (languages ++
         [{| li_id := Z.of_nat i + 1;
             li_name := name;
             li_key := key;
             li_version := va.1;
             li_timeout_seconds := timeout_seconds;
             li_memory_limit_mb := 256;
             li_available := va.2 |}])
  end.

Definition get_supported_languages : M (list LanguageInfo) :=
  probe_each 0 items [].

End Methods.

(** What the probe of one language does: it starts a command in the
    directory of the server and waits five seconds for it. *)
Definition probe_event (server_cwd : str) (ev : event) : Prop :=
  match ev with
  | EvSpawn _ _ cwd => cwd = server_cwd
  | EvCommunicate _ None (Some 5%Z) => True
  | _ => False
  end.

(** The version command of a language answers: it starts, ends within
    five seconds with the return code [0], and what it wrote is UTF-8 for
    a text whose first line, once trimmed, is [version]. *)
Definition answers (env : Env) (server_cwd : str) (argv : list str)
    (version : str) : Prop :=
  exists b out err text,
    env_spawn env argv server_cwd = inr b /\
    b_within b 5 = true /\
    b_run b None = Exits 0 out err /\
    Utf8.decode Utf8.Strict out = inr text /\
    split LF (Text.strip text) !! 0%nat = Some version.

(** The entry of a language reports what its version command answers:
    when the command answers, the language is available with that answer
    as its version; when it does not, the language is not available and
    its version is "Not available". *)
Definition reports (env : Env) (server_cwd : str) (argv : list str)
    (version : str) (available : bool) : Prop :=
  (forall v, answers env server_cwd argv v ->
             available = true /\ version = v) /\
  (available = true -> answers env server_cwd argv version) /\
  (available = false ->
   version = lit "Not available" /\
   forall v, ¬ answers env server_cwd argv v).

End Probe.

(** ** The endpoint that runs a submission *)

Module App.
Import CodeExecutor.

(** [s or ""] *)
Definition or_empty (s : str) : str :=
  match s with
  | [] => lit ""
  | _ => s
  end.

(** [run_code], the handler of [POST /run-code]; its database session is
    not used. *)
Definition run_code (env : Env) (language code test_input : str)
  : M (gmap str str) :=
  try_except
    (result <- execute_code env language code test_input (Some 30%Z) ;;
     ret (list_to_map
            [(lit "status",
              if bool_decide (status result <> lit "Time Limit Exceeded")
              then lit "success" else lit "timeout");
             (lit "output", or_empty (stdout result));
             (lit "error", or_empty (stderr result));
             (lit "execution_status", status result)]))
    is_Exception
    (fun e =>
       ret (list_to_map
              [(lit "status", lit "error"); (lit "error", e_str e)])).

(** The answer for a result of the executor. *)
Definition answer_of (r : ExecutionResult) : gmap str str :=
  list_to_map
    [(lit "status",
      if bool_decide (status r <> lit "Time Limit Exceeded")
      then lit "success" else lit "timeout");
     (lit "output", stdout r);
     (lit "error", stderr r);
     (lit "execution_status", status r)].

End App.

(** ** More of what an invocation meets *)


(** No event of the list is about a child. *)
Definition no_child (evs : list event) : Prop :=
  Forall (fun ev =>
            match ev with
            | EvSpawn _ _ _ | EvCommunicate _ _ _ | EvKill _ | EvWait _ =>
                False
            | _ => True
            end) evs.

Module MoreExamples.
Import Examples.


(** The program writes back what it reads. *)
Definition echo : Behaviour :=
  {| b_run := fun input =>
                match input with
                | Some data => Exits 0 data []
                | None => Exits 0 [] []
                end;
     b_within := fun _ => true;
     b_killed := (-9)%Z;
     b_kill := None;
     b_removes := [];
     b_files := [];
     b_blocks := None |}.

Definition env_echo : Env := env_of (fun _ _ => inr echo).

(** The task is cancelled while the program runs. *)
Definition cancelled : exn := {| e_class := CancelledError; e_str := [] |}.

Definition interrupted : Behaviour :=
  {| b_run := fun _ => Fails cancelled;
     b_within := fun _ => true;
     b_killed := (-9)%Z;
     b_kill := None;
     b_removes := [];
     b_files := [];
     b_blocks := None |}.

Definition env_cancelled : Env := env_of (fun _ _ => inr interrupted).


(** A machine with Python and Node, without a Java runtime, and whose C++
    compiler does not answer in time. *)
Definition env_partial : Env :=
  env_of (fun argv _ =>
            if bool_decide (head argv = Some (lit "python3")) then
              inr (child 0 (blit "Python 3.11.4" ++ [x0a]) [] [])
            else if bool_decide (head argv = Some (lit "node")) then
              inr (child 0 (blit "v20.5.0" ++ [x0a]) [] [])
            else if bool_decide (head argv = Some (lit "g++")) then
              inr looping
            else inl ENOENT).

End MoreExamples.

(** * Properties *)

(** ** Trimming *)

Module TextFacts.
Import Text.







Lemma lstrip_id s :
  (forall c, head s = Some c -> isspace c = false) -> lstrip s = s.
Proof.
  destruct s as [|x s]; [done|]. simpl. intros H.
  by rewrite (H x eq_refl).
Qed.

(** Trimming changes nothing in a text that is trimmed already. *)
Lemma strip_id s : trimmed s -> strip s = s.
Proof.
  intros [Hh Hl]. unfold strip, rstrip. rewrite (lstrip_id s Hh).
  rewrite lstrip_id; [apply reverse_involutive|].
  intros c. rewrite head_reverse. apply Hl.
Qed.

End TextFacts.

(** ** Decoding *)

Module Utf8Facts.
Import Utf8.

(** Under [errors='ignore'] the handler never fails and keeps the code
    points of the well-formed sequences. *)
Lemma handle_ignore ps : forall pos, handle Ignore pos ps = inr (chars ps).
Proof.
  induction ps as [|[c|b n why] ps IH]; intros pos; simpl; [done| |].
  - by rewrite IH.
  - apply IH.
Qed.

Lemma decode_ignore bs : decode Ignore bs = inr (chars (scan bs)).
Proof. apply handle_ignore. Qed.

(** Under [errors='replace'] it never fails either, and leaves one
    replacement character for each malformed span. *)
Lemma handle_replace ps : forall pos, handle Replace pos ps = inr (replaced ps).
Proof.
  induction ps as [|[c|b n why] ps IH]; intros pos; simpl; [done| |];
    by rewrite IH.
Qed.

(** The strict handler succeeds exactly on input without a malformed
    span, and then gives what the permissive one gives. *)
Lemma handle_strict ps : forall pos s,
  handle Strict pos ps = inr s -> has_malformed ps = false /\ s = chars ps.
Proof.
  induction ps as [|[c|b n why] ps IH]; intros pos s; simpl.
  - by intros [= <-].
  - destruct (handle Strict _ ps) as [e|s'] eqn:E; [discriminate|].
    intros [= <-]. destruct (IH _ _ E) as [-> ->]. done.
  - discriminate.
Qed.

Lemma handle_well_formed h ps : forall pos,
  has_malformed ps = false -> handle h pos ps = inr (chars ps).
Proof.
  induction ps as [|[c|b n why] ps IH]; intros pos; simpl; [done| |].
  - intros H. by rewrite IH.
  - discriminate.
Qed.

(** *** Well-formed input is decoded as it was encoded *)

Ltac divlia := zify; Z.to_euclidean_division_equations; lia.

Lemma to_N_octet n : Byte.to_N (octet n) = n mod 256.
Proof.
  unfold octet. destruct (Byte.of_N (n mod 256)) as [b|] eqn:E.
  - by apply Byte.to_of_N.
  - apply Byte.of_N_None_iff in E. divlia.
Qed.

Lemma to_N_octet_small n : n < 256 -> Byte.to_N (octet n) = n.
Proof. intros H. rewrite to_N_octet. by apply N.mod_small. Qed.

(** The first step of the scanning loop on a sequence of one to four
    bytes. *)
Lemma scan_1 c0 r :
  Byte.to_N c0 < 0x80 -> scan (c0 :: r) = Char (Byte.to_N c0) :: scan r.
Proof.
  intros H. simpl. by destruct (N.ltb_spec (Byte.to_N c0) 0x80); [|lia].
Qed.

Ltac decide_cmp :=
  repeat match goal with
    | |- context [?a <? ?b] => destruct (N.ltb_spec a b); try lia
    | |- context [?a <=? ?b] => destruct (N.leb_spec a b); try lia
    | |- context [?a =? ?b] => destruct (N.eqb_spec a b); try lia
    end.

Lemma scan_2 c0 c1 r :
  0xC2 <= Byte.to_N c0 < 0xE0 -> is_cont (Byte.to_N c1) = true ->
  scan (c0 :: c1 :: r) =
  Char (Byte.to_N c0 * 64 + Byte.to_N c1 - (0xC0 * 64 + 0x80)) :: scan r.
Proof.
  intros H0 H1. cbn [scan]. cbv zeta. rewrite H1. cbn [negb].
  decide_cmp. reflexivity.
Qed.

Lemma scan_3 c0 c1 c2 r :
  0xE0 <= Byte.to_N c0 < 0xF0 ->
  is_cont (Byte.to_N c1) = true -> is_cont (Byte.to_N c2) = true ->
  (Byte.to_N c0 = 0xE0 -> 0xA0 <= Byte.to_N c1) ->
  (Byte.to_N c0 = 0xED -> Byte.to_N c1 < 0xA0) ->
  scan (c0 :: c1 :: c2 :: r) =
  Char (Byte.to_N c0 * 4096 + Byte.to_N c1 * 64 + Byte.to_N c2
        - (0xE0 * 4096 + 0x80 * 64 + 0x80)) :: scan r.
Proof.
  intros H0 H1 H2 Hlo Hhi. cbn [scan]. cbv zeta. rewrite H1, H2.
  cbn [negb orb]. decide_cmp; reflexivity.
Qed.

Lemma scan_4 c0 c1 c2 c3 r :
  0xF0 <= Byte.to_N c0 < 0xF5 ->
  is_cont (Byte.to_N c1) = true -> is_cont (Byte.to_N c2) = true ->
  is_cont (Byte.to_N c3) = true ->
  (Byte.to_N c0 = 0xF0 -> 0x90 <= Byte.to_N c1) ->
  (Byte.to_N c0 = 0xF4 -> Byte.to_N c1 < 0x90) ->
  scan (c0 :: c1 :: c2 :: c3 :: r) =
  Char (Byte.to_N c0 * 262144 + Byte.to_N c1 * 4096 + Byte.to_N c2 * 64
        + Byte.to_N c3
        - (0xF0 * 262144 + 0x80 * 4096 + 0x80 * 64 + 0x80)) :: scan r.
Proof.
  intros H0 H1 H2 H3 Hlo Hhi. cbn [scan]. cbv zeta. rewrite H1, H2, H3.
  cbn [negb orb]. decide_cmp; reflexivity.
Qed.

Lemma is_cont_octet n : n < 64 -> is_cont (Byte.to_N (octet (0x80 + n))) = true.
Proof.
  intros H. rewrite to_N_octet_small by lia. unfold is_cont.
  decide_cmp; reflexivity.
Qed.

(** The scanning loop finds in the bytes of a code point that code
    point. *)
Lemma scan_encode_char c rest :
  c < 0x110000 -> is_surrogate c = false ->
  scan (encode_char c ++ rest) = Char c :: scan rest.
Proof.
  intros Hc Hs.
  assert (c < 0xD800 \/ 0xDFFF < c) as Hs'.
  { unfold is_surrogate in Hs.
    apply andb_false_iff in Hs as [Hs|Hs]; apply N.leb_gt in Hs; lia. }
  clear Hs. unfold encode_char.
  destruct (N.ltb_spec c 0x80);
    [|destruct (N.ltb_spec c 0x800); [|destruct (N.ltb_spec c 0x10000)]];
    cbn [app].
  - rewrite scan_1; rewrite to_N_octet_small by lia; [done | lia].
  - rewrite scan_2; rewrite ?is_cont_octet by divlia;
      rewrite ?to_N_octet_small by divlia; [|divlia|done].
    f_equal. f_equal. divlia.
  - rewrite scan_3; rewrite ?is_cont_octet by divlia;
      rewrite ?to_N_octet_small by divlia; [|divlia|done|done|divlia..].
    f_equal. f_equal. divlia.
  - rewrite scan_4; rewrite ?is_cont_octet by divlia;
      rewrite ?to_N_octet_small by divlia;
      [|divlia|done|done|done|divlia..].
    f_equal. f_equal. divlia.
Qed.

Lemma scan_encode s : forall pos bs,
  Forall (fun c => c < 0x110000) s ->
  encode_from pos s = inr bs -> scan bs = map Char s.
Proof.
  induction s as [|c s IH]; intros pos bs Hv; simpl.
  - by intros [= <-].
  - apply Forall_cons in Hv as [Hc Hv].
    destruct (is_surrogate c) eqn:Hs; [discriminate|].
    destruct (encode_from (S pos) s) as [e|bs'] eqn:E; [discriminate|].
    intros [= <-]. rewrite (scan_encode_char c bs' Hc Hs).
    f_equal. exact (IH _ _ Hv E).
Qed.

(** A text that encodes is given back by the decoder, whatever its error
    handler. *)
Lemma decode_encode h s bs :
  Forall (fun c => c < 0x110000) s ->
  encode s = inr bs -> decode h bs = inr s.
Proof.
  intros Hv He. unfold decode. rewrite (scan_encode s O bs Hv He).
  rewrite handle_well_formed.
  - f_equal. clear. induction s as [|c s IH]; simpl; [done|]. by rewrite IH.
  - clear. induction s as [|c s IH]; simpl; done.
Qed.

End Utf8Facts.

(** ** The registry *)

Module RegistryFacts.
Import CodeExecutor.

Lemma registered language config :
  languages !! language = Some config ->
  language ∈ [lit "python"; lit "java"; lit "cpp"; lit "javascript"].
Proof.
  intros H. apply elem_of_list_to_map_2 in H.
  repeat (apply elem_of_cons in H as [[= -> _]|H]; [set_solver|]).
  by apply elem_of_nil in H.
Qed.

Lemma no_default_timeout language config :
  languages !! language = Some config ->
  config !! lit "default_timeout" = None.
Proof.
  intros H. apply elem_of_list_to_map_2 in H.
  repeat (apply elem_of_cons in H as [[= _ ->]|H]; [by vm_compute|]).
  by apply elem_of_nil in H.
Qed.

End RegistryFacts.

(** ** Paths *)

Module PathFacts.

Lemma rfind_app c (s1 s2 : str) :
  Text.rfind c (s1 ++ s2) =
  match Text.rfind c s2 with
  | Some i => Some (length s1 + i)%nat
  | None => Text.rfind c s1
  end.
Proof.
  induction s1 as [|x s1 IH]; simpl.
  - by destruct (Text.rfind c s2).
  - rewrite IH. by destruct (Text.rfind c s2).
Qed.

(** The name of [d / name] is [name] when [name] is a single component. *)
Lemma Path_name_joinpath d name :
  Text.rfind SEP name = None -> Path_name (joinpath d name) = name.
Proof.
  intros H. unfold Path_name, joinpath. rewrite rfind_app. simpl.
  rewrite H. simpl. rewrite Nat.add_0_r.
  change (d ++ SEP :: name) with (d ++ [SEP] ++ name).
  rewrite app_assoc, drop_app_length'; [done|].
  rewrite length_app. simpl. lia.
Qed.

Lemma Path_stem_java d :
  Path_stem (joinpath d (lit "Solution.java")) = lit "Solution".
Proof. unfold Path_stem. by rewrite Path_name_joinpath. Qed.



End PathFacts.

(** ** The four languages share the two phases *)

Module DispatchFacts.
Import CodeExecutor.

Lemma source_file_java d :
  source_file_of (lit "java") d = joinpath d (lit "Solution.java").
Proof. reflexivity. Qed.

(** For a registered language the dispatch of [_execute_in_temp_dir] is
    the compile phase, when there is one, and the run phase. *)
Lemma dispatch_staged env stdin timeout d config language :
  languages !! language = Some config ->
  dispatch env (source_file_of language d) stdin timeout d config language
  = staged env language stdin timeout d.
Proof.
  intros H. apply elem_of_list_to_map_2 in H.
  repeat (apply elem_of_cons in H as [[= -> ->]|H]).
  - reflexivity.
  - unfold dispatch, staged.
    change (arm_of (lit "java")) with ArmJava. cbv iota.
    unfold _run_java. rewrite source_file_java, PathFacts.Path_stem_java.
    reflexivity.
  - reflexivity.
  - reflexivity.
  - by apply elem_of_nil in H.
Qed.

(** The extension of a registered language is a text. *)
Lemma extension_registered language config d :
  languages !! language = Some config ->
  exists ext, config !! lit "extension" = Some ext /\
    joinpath d (lit "Solution" ++ format ext) = source_file_of language d.
Proof.
  intros H. unfold source_file_of. rewrite H.
  apply elem_of_list_to_map_2 in H.
  repeat (apply elem_of_cons in H as [[= -> ->]|H]);
    [by eexists..|].
  by apply elem_of_nil in H.
Qed.

End DispatchFacts.

(** ** Stepping through an invocation *)

Module Steps.
Import CodeExecutor.

(** With a registered language and a timeout, [execute_code] makes the
    workspace, runs its body in it and leaves it. *)
Lemma execute_code_leaves env language config source_code stdin t w d :
  languages !! language = Some config ->
  env_mkdtemp env = inr d ->
  execute_code env language source_code stdin (Some t) w =
  let (o, w2) :=
    try_except
      (_execute_in_temp_dir env d config source_code stdin (VInt t) language)
      is_Exception (fun e => ret (error_result e 0)) (made d w) in
  leaving d o w2.
Proof.
  intros Hl Hmk. unfold execute_code. rewrite Hl.
  unfold bind at 1. unfold ret at 1.
  unfold with_as, TemporaryDirectory. rewrite Hmk.
  destruct (try_except _ _ _ (made d w)) as [[r|e|] w2]; reflexivity.
Qed.

(** What [execute_code] makes of the outcome of the two phases. *)
Lemma execute_code_inside env language config source_code stdin t w d data :
  languages !! language = Some config ->
  env_mkdtemp env = inr d ->
  env_open env (source_file_of language d) = None ->
  Utf8.encode source_code = inr data ->
  execute_code env language source_code stdin (Some t) w =
  match staged env language stdin (VInt t) d (prepared language d data w) with
  | (Return r, w3) => leaving d (Return r) w3
  | (Raise e, w3) =>
      if is_Exception e then
        leaving d
          (Return (error_result e
                     (env_time env (ticks w3) - env_time env (ticks w))))
          (tick w3)
      else leaving d (Raise e) w3
  | (Hang, w3) => (Hang, w3)
  end.
Proof.
  intros Hl Hmk Hopen Henc.
  destruct (DispatchFacts.extension_registered _ _ d Hl) as (ext & Hext & Hsf).
  rewrite (execute_code_leaves _ _ _ _ _ _ _ _ Hl Hmk).
  unfold try_except at 1. unfold _execute_in_temp_dir.
  unfold bind at 1. unfold time_time at 1.
  unfold bind at 1. unfold getitem. rewrite Hext. unfold ret at 1.
  rewrite Hsf.
  unfold bind at 1. unfold write_text. rewrite Hopen, Henc.
  rewrite (DispatchFacts.dispatch_staged _ _ _ _ _ _ Hl).
  unfold try_except. fold (prepared language d data w).
  destruct (staged env language stdin (VInt t) d (prepared language d data w))
    as [[r|e|] w3]; [reflexivity| |reflexivity].
  destruct (is_Exception e) eqn:He; simpl; rewrite ?He; reflexivity.
Qed.

(** A workspace whose removal nothing blocks goes, and the outcome
    stands. *)
Lemma leaving_clear {A} d (o : outcome A) w :
  stuck w !! d = None -> o <> Hang -> leaving d o w = (o, removed d w).
Proof.
  intros H Ho. unfold leaving, cleanup. rewrite H. by destruct o.
Qed.

(** A workspace whose removal fails is left, and the error of the removal
    is the outcome. *)
Lemma leaving_stuck {A} d (o : outcome A) w e keep :
  stuck w !! d = Some (e, keep) -> d ∈ fs w -> o <> Hang ->
  leaving d o w = (Raise e, remaining d keep w).
Proof.
  intros H Hd Ho. unfold leaving, cleanup.
  rewrite H, (bool_decide_true _ Hd). by destruct o.
Qed.

(** A new workspace that has received its source file is not blocked. *)
Lemma stuck_prepared language d data w :
  stuck (prepared language d data w) !! d = None.
Proof. simpl. apply lookup_delete_eq. Qed.

Lemma stuck_spawned_clear argv cwd b w :
  b_blocks b = None -> stuck (spawned argv cwd b w) = stuck w.
Proof. intros H. simpl. by rewrite H. Qed.

Lemma stuck_exited_clear argv cwd b rc w :
  b_blocks b = None -> stuck (exited argv cwd b rc w) = stuck w.
Proof. intros H. simpl. by rewrite H. Qed.

Lemma compile_argv_is_compiler language d argv :
  compile_argv language d = Some argv -> is_compiler argv = true.
Proof.
  unfold compile_argv. repeat case_bool_decide; intros [= <-]; reflexivity.
Qed.

(** A compiler leaves nothing that blocks the removal of the workspace. *)
Lemma compiler_clear env language d argv cb :
  compile_argv language d = Some argv ->
  env_spawn env argv d = inr cb -> b_blocks cb = None.
Proof.
  intros Ha Hs.
  exact (proj1 (env_compilers env argv d cb
                  (compile_argv_is_compiler _ _ _ Ha) Hs)).
Qed.

(** A child that removes nothing leaves the paths where they are. *)
Lemma spawned_keeps argv cwd b w p :
  b_removes b = [] -> p ∈ fs w -> p ∈ fs (spawned argv cwd b w).
Proof.
  intros Hr Hp. simpl. apply elem_of_union. right.
  apply elem_of_filter. split; [|done]. unfold survives. rewrite Hr.
  constructor.
Qed.

(** The compile phase removes nothing. *)
Lemma fs_before_run env language d w p :
  p ∈ fs w -> p ∈ fs (before_run env language d w).
Proof.
  intros Hp. unfold before_run.
  destruct (compile_argv language d) as [argv|] eqn:Ha; [|done].
  destruct (env_spawn env argv d) as [e|cb] eqn:Hs; [done|].
  cbn [fs exited set_returncode emit]. apply spawned_keeps; [|done].
  exact (proj2 (env_compilers env argv d cb
                  (compile_argv_is_compiler _ _ _ Ha) Hs)).
Qed.

Lemma stuck_before_run env language d w :
  stuck (before_run env language d w) = stuck w.
Proof.
  unfold before_run. destruct (compile_argv language d) as [argv|] eqn:Ha;
    [|reflexivity].
  destruct (env_spawn env argv d) as [e|cb] eqn:Hs; [reflexivity|].
  by rewrite (stuck_exited_clear _ _ _ _ _ (compiler_clear _ _ _ _ _ Ha Hs)).
Qed.

Lemma encode_input_ok stdin data w :
  Utf8.encode stdin = inr data ->
  encode_input stdin w = (Return (input_bytes stdin data), w).
Proof.
  intros H. destruct stdin as [|c stdin]; [reflexivity|].
  unfold encode_input, bind, str_encode. by rewrite H.
Qed.

Lemma bytes_decode_ignore b w :
  bytes_decode Utf8.Ignore b w = (Return (Utf8.chars (Utf8.scan b)), w).
Proof. unfold bytes_decode. by rewrite Utf8Facts.decode_ignore. Qed.

Lemma returncode_observed (l : list (option Z)) h rc :
  l !! h = Some None -> mjoin (<[h := Some rc]> l !! h) = Some rc.
Proof.
  intros H. apply lookup_lt_Some in H.
  by rewrite list_lookup_insert_eq.
Qed.

(** The run phase of a child that ends in time: its streams decoded and
    trimmed, its return code, and the status that goes with the code. *)
Lemma run_phase_exits env p stdin t st w data rc out err :
  returncode w !! p_handle p = Some None ->
  Utf8.encode stdin = inr data ->
  ends_in_time (p_behaviour p) (input_bytes stdin data) t rc out err ->
  run_phase env p stdin (VInt t) st w =
  (Return {| stdout := text_of out;
             stderr := text_of err;
             exit_code := Some rc;
             execution_time_ms := env_time env (ticks w) - st;
             memory_usage_mb := None;
             status := run_status false (Some rc);
             timeout := false |},
   tick (set_returncode (p_handle p) rc
           (emit (EvCommunicate (p_handle p) (input_bytes stdin data)
                    (Some t)) w))).
Proof.
  intros Hh Henc (Hpos & Hfit & Hin & Hrun).
  unfold run_phase, bind at 1, try_except, bind at 1.
  rewrite (encode_input_ok _ _ _ Henc).
  unfold bind at 1, wait_for_communicate.
  rewrite (proj2 (Z.leb_gt t 0) Hpos), Hfit, Hin, Hrun.
  unfold ret at 1. unfold bind at 1, time_time.
  unfold bind at 1, get_returncode at 1.
  cbn [returncode tick set_returncode emit].
  rewrite (returncode_observed _ _ _ Hh).
  unfold bind, bytes_decode. rewrite !Utf8Facts.decode_ignore.
  unfold ret, get_returncode. cbn [returncode tick set_returncode emit].
  rewrite (returncode_observed _ _ _ Hh). reflexivity.
Qed.


(** The race under a positive timeout that is a float. *)
Lemma wait_for_in_range p input t w :
  (0 < t)%Z -> too_large t = false ->
  wait_for_communicate p input (VInt t) w =
  let h := p_handle p in
  let w1 := emit (EvCommunicate h input (Some t)) w in
  if b_within (p_behaviour p) t then
    match b_run (p_behaviour p) input with
    | Exits rc out err => (Return (out, err), set_returncode h rc w1)
    | Fails e => (Raise e, w1)
    | Never => (Raise asyncio_TimeoutError, w1)
    end
  else (Raise asyncio_TimeoutError, w1).
Proof.
  intros Hpos Hfit. unfold wait_for_communicate.
  by rewrite (proj2 (Z.leb_gt t 0) Hpos), Hfit.
Qed.

Lemma spawn_ok env argv cwd b w :
  env_spawn env argv cwd = inr b ->
  create_subprocess_exec env argv cwd w =
  (Return {| p_handle := length (returncode w); p_behaviour := b |},
   spawned argv cwd b w).
Proof. intros H. unfold create_subprocess_exec. by rewrite H. Qed.

Lemma spawned_fresh argv cwd b w :
  returncode (spawned argv cwd b w) !! length (returncode w) = Some None.
Proof. simpl. by rewrite list_lookup_middle. Qed.



(** A compiler that exits with [0] hands over to the run phase. *)
Lemma compile_phase_ok env argv cwd st run w cb out err :
  env_spawn env argv cwd = inr cb ->
  b_run cb None = Exits 0 out err ->
  compile_phase env argv cwd st run w = run (exited argv cwd cb 0 w).
Proof.
  intros Hs Hrun.
  unfold compile_phase, bind at 1. rewrite (spawn_ok _ _ _ _ _ Hs).
  unfold bind at 1, communicate. cbn [p_handle p_behaviour]. rewrite Hrun.
  unfold bind at 1, get_returncode at 1.
  cbn [p_handle returncode set_returncode emit].
  rewrite (returncode_observed _ _ _ (spawned_fresh argv cwd cb w)).
  rewrite bool_decide_false by (intros H; by apply H).
  reflexivity.
Qed.

(** With a compiler that exits with [0], or none, the two phases come
    down to the run phase of the child of the run command. *)
Lemma staged_run env language stdin timeout d w b :
  compiles env language d ->
  env_spawn env (run_argv language d) d = inr b ->
  staged env language stdin timeout d w =
  run_phase env
    {| p_handle := length (returncode (before_run env language d w));
       p_behaviour := b |}
    stdin timeout (env_time env (ticks w))
    (spawned (run_argv language d) d b (before_run env language d w)).
Proof.
  intros Hc Hs. unfold staged, compiles, before_run in *.
  unfold bind at 1, time_time.
  destruct (compile_argv language d) as [argv|].
  - destruct Hc as (cb & out & err & Hcs & Hrun).
    rewrite (compile_phase_ok _ _ _ _ _ _ _ _ _ Hcs Hrun), Hcs.
    unfold bind at 1. by rewrite (spawn_ok _ _ _ _ _ Hs).
  - unfold bind at 1. by rewrite (spawn_ok _ _ _ _ _ Hs).
Qed.


Lemma trace_events w w' evs :
  trace w' = trace w ++ evs -> events_since w w' = evs.
Proof. intros H. unfold events_since. rewrite H. apply drop_app_length. Qed.

(** The world in which the run command is spawned differs from the
    prepared one by the compile phase only. *)
Lemma trace_before_run env language d w :
  exists evs, trace (before_run env language d w) = trace w ++ evs.
Proof.
  unfold before_run. destruct (compile_argv language d) as [argv|].
  - destruct (env_spawn env argv d) as [e|cb]; simpl.
    + exists []. by rewrite app_nil_r.
    + eexists. by rewrite <- app_assoc.
  - exists []. simpl. by rewrite app_nil_r.
Qed.

(** When the child of the run phase leaves nothing that blocks the
    removal, nothing blocks it once the child has been spawned. *)
Lemma stuck_run_clear env language d sdata w b :
  b_blocks b = None ->
  stuck (spawned (run_argv language d) d b
           (before_run env language d (prepared language d sdata w))) !! d
  = None.
Proof.
  intros Hb. rewrite (stuck_spawned_clear _ _ _ _ Hb), stuck_before_run.
  apply stuck_prepared.
Qed.

(** An invocation whose child ends in time and whose workspace goes. *)
Lemma execute_code_exits env language source_code stdin t w d b data
    rc out err :
  reaches_run_phase env language source_code stdin d b data ->
  ends_in_time b (input_bytes stdin data) t rc out err ->
  b_blocks b = None ->
  exists ms w',
    execute_code env language source_code stdin (Some t) w =
    (Return {| stdout := text_of out;
               stderr := text_of err;
               exit_code := Some rc;
               execution_time_ms := ms;
               memory_usage_mb := None;
               status := run_status false (Some rc);
               timeout := false |}, w').
Proof.
  intros ([config Hl] & (Hmk & Hopen & sdata & Hsrc) & Hc & Hs & Hin) Hw Hb.
  rewrite (execute_code_inside _ _ _ _ _ _ _ _ _ Hl Hmk Hopen Hsrc).
  rewrite (staged_run _ _ _ _ _ _ _ Hc Hs).
  erewrite run_phase_exits; [| apply spawned_fresh | done..].
  rewrite leaving_clear; [by eauto | | done].
  by apply stuck_run_clear.
Qed.




(** The status of the source and the status of the specification agree
    on a return code that has been observed. *)
Lemma run_status_derive timedOut rc :
  run_status timedOut (Some rc) = derive_status timedOut rc.
Proof.
  unfold run_status, derive_status. destruct timedOut; [done|].
  case_bool_decide as H; destruct (Z.eqb_spec rc 0) as [->|Hne];
    simpl; try done.
  congruence.
Qed.


(** *** Every result is classified *)











(** *** When the child cannot be killed, or the timer not be set *)







End Steps.

(** ** The workspace confines the invocation *)

Module Confinement.
Import CodeExecutor.

Section Within.

Variable env : Env.
Variable d : str.


































End Within.


Lemma removed_spec d w p :
  p ∈ fs (removed d w) <-> ¬ inside d p /\ p ∈ fs w.
Proof. simpl. by rewrite elem_of_filter. Qed.

Lemma remaining_spec d keep w p :
  p ∈ fs (remaining d keep w) <->
  (¬ inside d p \/ p = d \/ p ∈ keep) /\ p ∈ fs w.
Proof. simpl. by rewrite elem_of_filter. Qed.






End Confinement.

(** * The contract of [execute_code] *)

Import CodeExecutor.

(** C3: a request for a language without a registry entry is rejected by
    the caller error [ValueError("Unsupported language: ...")] and not by a
    result, and the world is as it was: no directory has been made, no file
    written, no process started. *)
Theorem unsupported_language_rejected env language source_code stdin
    timeout w :
  languages !! language = None ->
  execute_code env language source_code stdin timeout w =
  (Raise (mkValueError (lit "Unsupported language: " ++ language)), w).
Proof. intros H. unfold execute_code. by rewrite H. Qed.

Lemma unsupported_language_rejected_witness :
  languages !! lit "ruby" = None /\
  execute_code Examples.env_cpp (lit "ruby") (lit "puts 42") (lit "")
    (Some 30%Z) Examples.w0 =
  (Raise (mkValueError (lit "Unsupported language: ruby")), Examples.w0).
Proof.
  split; [reflexivity|].
  apply (unsupported_language_rejected Examples.env_cpp (lit "ruby")).
  reflexivity.
Defined.

(** C2: for each of the four registered languages a call without a
    timeout raises [KeyError('default_timeout')] before anything else
    happens: the entries of the registry keep their default of 30 seconds
    under the key [timeout], and [execute_code] asks for
    [default_timeout]. *)
Theorem default_timeout_lookup_raises env source_code stdin w :
  Forall (fun language =>
            execute_code env language source_code stdin None w =
            (Raise (mkKeyError (lit "default_timeout")), w) /\
            exists config,
              languages !! language = Some config /\
              config !! lit "timeout" = Some (VInt 30) /\
              config !! lit "default_timeout" = None)
    [lit "python"; lit "java"; lit "cpp"; lit "javascript"].
Proof.
  repeat match goal with |- Forall _ _ => constructor end.
  all: split; [reflexivity|].
  all: eexists; split; [reflexivity|]; split; reflexivity.
Qed.

(** C10: a language that passes the registry check is served by one of
    the four run coroutines: the arm that raises "Language ... not
    implemented" is never taken, and the compiled arm is taken for [cpp]
    only, [c] having no registry entry. *)
Theorem dispatch_covers_registry language config :
  languages !! language = Some config ->
  arm_of language <> ArmNotImplemented /\
  (arm_of language = ArmCompiled -> language = lit "cpp") /\
  languages !! lit "c" = None /\
  forall env source_file stdin timeout d,
    (language = lit "python" /\
     dispatch env source_file stdin timeout d config language =
     _run_python env source_file stdin timeout d) \/
    (language = lit "java" /\
     dispatch env source_file stdin timeout d config language =
     _run_java env source_file stdin timeout d) \/
    (language = lit "cpp" /\
     dispatch env source_file stdin timeout d config language =
     _run_compiled env source_file stdin timeout d config) \/
    (language = lit "javascript" /\
     dispatch env source_file stdin timeout d config language =
     _run_javascript env source_file stdin timeout d).
Proof.
  intros H. apply RegistryFacts.registered in H.
  repeat (apply elem_of_cons in H as [->|H]).
  - split; [done|]. split; [done|]. split; [done|]. intros. by left.
  - split; [done|]. split; [done|]. split; [done|]. intros.
    right. by left.
  - split; [done|]. split; [done|]. split; [done|]. intros.
    right. right. by left.
  - split; [done|]. split; [done|]. split; [done|]. intros.
    right. right. by right.
  - by apply elem_of_nil in H.
Qed.

Lemma dispatch_covers_registry_witness :
  exists config,
    languages !! lit "cpp" = Some config /\
    arm_of (lit "cpp") <> ArmNotImplemented /\
    arm_of (lit "cpp") = ArmCompiled.
Proof.
  eexists. split; [reflexivity|]. split; [|reflexivity].
  eapply dispatch_covers_registry. reflexivity.
Defined.









(** C7, as the specification words it, fails: a byte that starts no UTF-8
    sequence leaves no replacement character in the result.  The child
    writes the bytes [ff 61]; the [stdout] of the result is ["a"], where
    replacing would have given U+FFFD followed by ["a"]. *)
Lemma malformed_bytes_are_not_replaced :
  exists r w',
    execute_code Examples.env_latin1 (lit "python")
      (lit "import os; os.write(1, bytes([255, 97]))") (lit "") (Some 30%Z)
      Examples.w0 = (Return r, w') /\
    stdout r = lit "a" /\
    (Utf8.REPLACEMENT_CHARACTER ∉ stdout r) /\
    decode_replacing [xff; x61] w' =
      (Return [Utf8.REPLACEMENT_CHARACTER; 97%N], w') /\
    stdout r <> Text.strip [Utf8.REPLACEMENT_CHARACTER; 97%N].
Proof.
  eexists _, _. split; [vm_compute; reflexivity|].
  split; [reflexivity|]. split; [|split; [reflexivity | discriminate]].
  cbn [stdout]. intros H. apply list_elem_of_singleton in H. discriminate H.
Qed.

(** C7, amended: decoding with [errors='ignore'] never fails and gives
    the code points of the well-formed sequences of the bytes, in order,
    the malformed spans being left out; the bytes of an encoded text are
    decoded to that text.  When the child of the run phase ends within a
    positive timeout that is a float and leaves nothing that blocks the
    removal of the workspace, the [stdout] and [stderr] of the result are
    its two streams decoded in this way and trimmed. *)
Theorem decoding_ignores_malformed env language source_code stdin t w d b
    data rc out err :
  reaches_run_phase env language source_code stdin d b data ->
  ends_in_time b (input_bytes stdin data) t rc out err ->
  b_blocks b = None ->
  (exists r w',
     execute_code env language source_code stdin (Some t) w = (Return r, w') /\
     stdout r = Text.strip (Utf8.chars (Utf8.scan out)) /\
     stderr r = Text.strip (Utf8.chars (Utf8.scan err))) /\
  (forall bs w1,
     bytes_decode Utf8.Ignore bs w1 =
     (Return (Utf8.chars (Utf8.scan bs)), w1)) /\
  (forall s bs w1,
     Forall (fun c => c < 0x110000) s ->
     Utf8.encode s = inr bs ->
     bytes_decode Utf8.Ignore bs w1 = (Return s, w1)).
Proof.
  intros Hreach Hin Hb. split; [|split].
  - destruct (Steps.execute_code_exits _ _ _ _ _ w _ _ _ _ _ _ Hreach Hin Hb)
      as (ms & w' & H).
    eexists _, w'. split; [exact H|]. by split.
  - apply Steps.bytes_decode_ignore.
  - intros s bs w1 Hv He. unfold bytes_decode.
    by rewrite (Utf8Facts.decode_encode _ _ _ Hv He).
Qed.

Lemma decoding_ignores_malformed_witness :
  exists r w',
    execute_code Examples.env_latin1 (lit "python")
      (lit "import os; os.write(1, bytes([255, 97]))") (lit "") (Some 30%Z)
      Examples.w0 = (Return r, w') /\
    stdout r = lit "a".
Proof.
  destruct (decoding_ignores_malformed Examples.env_latin1 (lit "python")
              (lit "import os; os.write(1, bytes([255, 97]))") (lit "") 30
              Examples.w0 Examples.tmp
              (Examples.child 0 [xff; x61] [] []) [] 0 [xff; x61] [])
    as [(r & w' & H & Hout & _) _].
  - split; [by eexists|]. split.
    { split; [reflexivity|]. split; [reflexivity|]. eexists. reflexivity. }
    split; [exact I|]. split; reflexivity.
  - by repeat split.
  - reflexivity.
  - exists r, w'. by split.
Defined.










(** * Beyond the contract *)

(** ** More steps of an invocation *)

Module MoreSteps.
Import CodeExecutor.



Lemma chars_map_Char s : Utf8.chars (map Utf8.Char s) = s.
Proof. induction s as [|c s IH]; simpl; [done|]. by rewrite IH. Qed.





(** The run phase when the talk with the child fails with something that
    is no timeout. *)
Lemma run_phase_fails env p stdin t st w data e :
  Utf8.encode stdin = inr data ->
  (0 < t)%Z ->
  too_large t = false ->
  b_within (p_behaviour p) t = true ->
  b_run (p_behaviour p) (input_bytes stdin data) = Fails e ->
  is_TimeoutError e = false ->
  run_phase env p stdin (VInt t) st w =
  (Raise e,
   emit (EvCommunicate (p_handle p) (input_bytes stdin data) (Some t)) w).
Proof.
  intros Henc Hpos Hfit Hin Hrun He.
  unfold run_phase, bind at 1, try_except, bind at 1.
  rewrite (Steps.encode_input_ok _ _ _ Henc).
  unfold bind at 1, wait_for_communicate.
  by rewrite (proj2 (Z.leb_gt t 0) Hpos), Hfit, Hin, Hrun, He.
Qed.

(** An invocation whose child ends in time and leaves what makes the
    removal of the workspace fail: the error of the removal takes the
    place of the result. *)
Lemma execute_code_exits_blocked env language source_code stdin t w d b data
    rc out err e keep :
  reaches_run_phase env language source_code stdin d b data ->
  ends_in_time b (input_bytes stdin data) t rc out err ->
  b_blocks b = Some (e, keep) ->
  survives d b d ->
  exists w',
    execute_code env language source_code stdin (Some t) w = (Raise e, w') /\
    d ∈ fs w' /\
    exists pre, events_since w w' = pre ++ [EvRmtree d].
Proof.
  intros ([config Hl] & (Hmk & Hopen & sdata & Hsrc) & Hc & Hs & Hin) Hw Hb
    Hsv.
  rewrite (Steps.execute_code_inside _ _ _ _ _ _ _ _ _ Hl Hmk Hopen Hsrc).
  rewrite (Steps.staged_run _ _ _ _ _ _ _ Hc Hs).
  erewrite Steps.run_phase_exits; [| apply Steps.spawned_fresh | done..].
  assert (d ∈ fs (spawned (run_argv language d) d b
                    (before_run env language d
                       (prepared language d sdata w)))) as Hd.
  { cbn [fs spawned emit]. apply elem_of_union. right.
    apply elem_of_filter. split; [exact Hsv|].
    apply Steps.fs_before_run. simpl. set_solver. }
  erewrite Steps.leaving_stuck; [| | exact Hd | done].
  2:{ cbn [stuck tick set_returncode emit spawned p_handle p_behaviour].
      rewrite Hb. apply lookup_insert_eq. }
  destruct (Steps.trace_before_run env language d (prepared language d sdata w))
    as [evs Hevs].
  eexists. split; [reflexivity|]. split.
  - apply Confinement.remaining_spec. split; [by right; left | exact Hd].
  - exists ([EvMkdtemp d; EvWrite (source_file_of language d) sdata] ++ evs
            ++ [EvSpawn (length (returncode
                           (before_run env language d
                              (prepared language d sdata w))))
                  (run_argv language d) d;
                EvCommunicate
                  (length (returncode
                             (before_run env language d
                                (prepared language d sdata w))))
                  (input_bytes stdin data) (Some t)]).
    apply Steps.trace_events.
    cbn [trace remaining emit set_fs tick set_returncode spawned p_handle
      p_behaviour].
    rewrite Hevs. cbn [trace prepared emit created set_fs tick made].
    by rewrite <- !app_assoc.
Qed.

End MoreSteps.









(** X5: what goes in comes out: when the program writes back the bytes it
    reads and exits with [0] within a positive timeout that is a float,
    and leaves nothing that blocks the removal of the workspace, the
    [stdout] of the result is the standard input, trimmed, and the status
    is "Accepted". *)
Theorem echo_returns_stdin env language source_code stdin t w d b data err :
  reaches_run_phase env language source_code stdin d b data ->
  stdin <> [] ->
  Forall (fun c => c < 0x110000) stdin ->
  ends_in_time b (Some data) t 0 data err ->
  b_blocks b = None ->
  exists r w',
    execute_code env language source_code stdin (Some t) w = (Return r, w') /\
    stdout r = Text.strip stdin /\
    status r = lit "Accepted" /\
    exit_code r = Some 0%Z.
Proof.
  intros Hreach Hne Hv Hin Hb.
  assert (input_bytes stdin data = Some data) as Hib
    by (by destruct stdin).
  destruct (Steps.execute_code_exits env language source_code stdin t w d b
              data 0 data err Hreach) as (ms & w' & H);
    [by rewrite Hib | done |].
  eexists _, w'. split; [exact H|]. cbn [stdout status exit_code].
  split; [|by split].
  unfold text_of. destruct Hreach as (_ & _ & _ & _ & Henc).
  by rewrite (Utf8Facts.scan_encode _ _ _ Hv Henc), MoreSteps.chars_map_Char.
Qed.

Lemma echo_returns_stdin_witness :
  exists r w',
    execute_code MoreExamples.env_echo (lit "python") (lit "print(input())")
      (lit " hello ") (Some 30%Z) Examples.w0 = (Return r, w') /\
    stdout r = lit "hello".
Proof.
  edestruct (echo_returns_stdin MoreExamples.env_echo (lit "python")
               (lit "print(input())") (lit " hello ") 30 Examples.w0
               Examples.tmp MoreExamples.echo (blit " hello ") [])
    as (r & w' & H & Hout & _).
  - split; [by eexists|]. split.
    { split; [reflexivity|]. split; [reflexivity|]. eexists. reflexivity. }
    split; [exact I|]. split; reflexivity.
  - discriminate.
  - repeat (apply List.Forall_cons; [reflexivity|]). apply List.Forall_nil.
  - by repeat split.
  - reflexivity.
  - exists r, w'. split; [exact H|]. exact Hout.
Defined.

(** X6: an exception that is no [Exception], such as the cancellation of
    the task, passes through both handlers when it strikes during the run:
    the child is not killed, and when what it leaves does not block the
    removal of the workspace, the workspace is removed and [execute_code]
    raises the exception. *)
Theorem cancellation_passes_and_cleans env language source_code stdin t w d
    b data e :
  reaches_run_phase env language source_code stdin d b data ->
  (0 < t)%Z ->
  too_large t = false ->
  b_within b t = true ->
  b_run b (input_bytes stdin data) = Fails e ->
  is_Exception e = false ->
  b_blocks b = None ->
  exists w' h pre,
    execute_code env language source_code stdin (Some t) w = (Raise e, w') /\
    events_since w w' =
      pre ++ [EvCommunicate h (input_bytes stdin data) (Some t); EvRmtree d] /\
    (forall p, p ∈ fs w' -> ¬ inside d p).
Proof.
  intros ([config Hl] & (Hmk & Hopen & sdata & Hsrc) & Hc & Hs & Hin) Hpos
    Hfit Hw Hrun He Hb.
  assert (is_TimeoutError e = false) as Ht.
  { unfold is_Exception, is_TimeoutError in *. by destruct (e_class e). }
  rewrite (Steps.execute_code_inside _ _ _ _ _ _ _ _ _ Hl Hmk Hopen Hsrc).
  rewrite (Steps.staged_run _ _ _ _ _ _ _ Hc Hs).
  erewrite MoreSteps.run_phase_fails;
    [| exact Hin | exact Hpos | exact Hfit | exact Hw | exact Hrun
     | exact Ht].
  rewrite He.
  rewrite Steps.leaving_clear; [| by apply Steps.stuck_run_clear | done].
  destruct (Steps.trace_before_run env language d (prepared language d sdata w))
    as [evs Hevs].
  eexists _,
    (length (returncode (before_run env language d
                           (prepared language d sdata w)))),
    ([EvMkdtemp d; EvWrite (source_file_of language d) sdata] ++ evs
     ++ [EvSpawn (length (returncode (before_run env language d
                                        (prepared language d sdata w))))
           (run_argv language d) d]).
  split; [reflexivity|]. split.
  - apply Steps.trace_events.
    cbn [trace removed emit set_fs tick spawned p_handle]. rewrite Hevs.
    cbn [trace prepared emit created set_fs tick made].
    by rewrite <- !app_assoc.
  - intros p Hp. by apply Confinement.removed_spec in Hp as [Hp _].
Qed.

Lemma cancellation_passes_and_cleans_witness :
  exists w',
    execute_code MoreExamples.env_cancelled (lit "javascript")
      (lit "for(;;);") (lit "") (Some 30%Z) Examples.w0
    = (Raise MoreExamples.cancelled, w') /\
    fs w' = ∅.
Proof.
  eexists. split; [vm_compute; reflexivity|].
  edestruct (cancellation_passes_and_cleans MoreExamples.env_cancelled
               (lit "javascript") (lit "for(;;);") (lit "") 30 Examples.w0
               Examples.tmp MoreExamples.interrupted [] MoreExamples.cancelled)
    as (w' & h & pre & H & _).
  - split; [by eexists|]. split.
    { split; [reflexivity|]. split; [reflexivity|]. eexists. reflexivity. }
    split; [exact I|]. split; reflexivity.
  - reflexivity.
  - reflexivity.
  - reflexivity.
  - reflexivity.
  - reflexivity.
  - reflexivity.
  - reflexivity.
Defined.

(** ** The availability probe *)

Module ProbeFacts.
Import CodeExecutor Probe.

Lemma split_nonempty sep s : exists field fields, split sep s = field :: fields.
Proof.
  induction s as [|c s (f & fs & IH)]; simpl; [by eexists _, _|].
  destruct (c =? sep); [by eexists _, _|]. rewrite IH. by eexists _, _.
Qed.

(** The items are the registry, in the order of the source. *)
Lemma items_registry : list_to_map items = languages.
Proof. reflexivity. Qed.

Lemma items_keys : items.*1 = language_keys.
Proof. reflexivity. Qed.

Section Within.

Variable env : Env.
Variable server_cwd : str.

(** Whether a version command answers is settled by the environment. *)
Lemma answers_or_not argv :
  (exists version, answers env server_cwd argv version) \/
  (forall version, ¬ answers env server_cwd argv version).
Proof.
  unfold answers.
  destruct (env_spawn env argv server_cwd) as [e|b] eqn:Hs;
    [right; intros v (? & ? & ? & ? & [=] & _)|].
  destruct (b_within b 5) eqn:Hin;
    [|right; intros v (? & ? & ? & ? & [= <-] & ? & _); congruence].
  destruct (b_run b None) as [rc out err|e|] eqn:Hrun;
    [|right; intros v (? & ? & ? & ? & [= <-] & _ & ? & _); congruence..].
  destruct (decide (rc = 0%Z)) as [->|Hrc];
    [|right; intros v (? & ? & ? & ? & [= <-] & _ & ? & _); congruence].
  destruct (Utf8.decode Utf8.Strict out) as [de|text] eqn:Hdec;
    [right; intros v (? & ? & ? & ? & [= <-] & _ & ? & ? & _); congruence|].
  destruct (split_nonempty LF (Text.strip text)) as (f & fs & Hsp).
  left. exists f, b, out, err, text. by rewrite Hsp.
Qed.

(** A version command has one answer at most. *)
Lemma answers_functional argv v v' :
  answers env server_cwd argv v -> answers env server_cwd argv v' -> v = v'.
Proof.
  intros (b & out & err & text & Hs & _ & Hrun & Hdec & Hline)
         (b' & out' & err' & text' & Hs' & _ & Hrun' & Hdec' & Hline').
  rewrite Hs in Hs'. injection Hs' as <-.
  rewrite Hrun in Hrun'. injection Hrun' as <- _.
  rewrite Hdec in Hdec'. injection Hdec' as <-.
  rewrite Hline in Hline'. by injection Hline'.
Qed.

(** The probe of a language whose version command answers. *)
Lemma probe_answers config argv version w :
  config !! lit "version_cmd" = Some (VList argv) ->
  answers env server_cwd argv version ->
  exists b,
    env_spawn env argv server_cwd = inr b /\
    probe env server_cwd config w =
    (Return (version, true),
     set_returncode (length (returncode w)) 0
       (emit (EvCommunicate (length (returncode w)) None (Some 5%Z))
          (spawned argv server_cwd b w))).
Proof.
  intros Hvc (b & out & err & text & Hs & Hin & Hrun & Hdec & Hline).
  exists b. split; [exact Hs|].
  unfold probe, try_except, bind at 1, getitem. rewrite Hvc.
  unfold ret at 1. unfold bind at 1, unpack, ret at 1.
  unfold bind at 1. rewrite (Steps.spawn_ok _ _ _ _ _ Hs).
  unfold bind at 1.
  rewrite (Steps.wait_for_in_range _ _ 5) by (vm_compute; reflexivity).
  cbn [p_handle p_behaviour]. rewrite Hin, Hrun.
  unfold bind at 1, get_returncode.
  cbn [p_handle returncode set_returncode emit].
  rewrite (Steps.returncode_observed _ _ _
             (Steps.spawned_fresh argv server_cwd b w)).
  rewrite bool_decide_true by done.
  unfold bind at 1, bytes_decode. cbn [fst]. rewrite Hdec.
  unfold ret at 1. unfold bind, list_getitem. by rewrite Hline.
Qed.

(** The probe of a language whose version command does not answer. *)
Lemma probe_silent config argv w :
  config !! lit "version_cmd" = Some (VList argv) ->
  (forall version, ¬ answers env server_cwd argv version) ->
  exists w' evs,
    probe env server_cwd config w =
    (Return (lit "Not available", false), w') /\
    trace w' = trace w ++ evs /\
    Forall (probe_event server_cwd) evs /\
    (length evs <= 2)%nat.
Proof.
  intros Hvc Hno.
  unfold probe, try_except, bind at 1, getitem. rewrite Hvc.
  unfold ret at 1. unfold bind at 1, unpack, ret at 1.
  unfold bind at 1, create_subprocess_exec.
  destruct (env_spawn env argv server_cwd) as [e|b] eqn:Hs.
  { eexists _, []. rewrite app_nil_r.
    repeat split; [constructor | simpl; lia]. }
  unfold bind at 1.
  rewrite (Steps.wait_for_in_range _ _ 5) by (vm_compute; reflexivity).
  cbn [p_handle p_behaviour].
  assert (Forall (probe_event server_cwd)
            [EvSpawn (length (returncode w)) argv server_cwd;
             EvCommunicate (length (returncode w)) None (Some 5%Z)]) as Hevs
    by (by repeat constructor).
  destruct (b_within b 5) eqn:Hin;
    [destruct (b_run b None) as [rc out err|e|] eqn:Hrun|].
  2-4: eexists _, _; split; [reflexivity|]; split;
    [simpl; by rewrite <- app_assoc | split; [exact Hevs | simpl; lia]].
  unfold bind at 1, get_returncode.
  cbn [p_handle returncode set_returncode emit].
  rewrite (Steps.returncode_observed _ _ _
             (Steps.spawned_fresh argv server_cwd b w)).
  case_bool_decide as Hrc.
  2: { eexists _, _; split; [reflexivity|]; split;
         [simpl; by rewrite <- app_assoc | split; [exact Hevs | simpl; lia]]. }
  injection Hrc as ->.
  unfold bind at 1, bytes_decode. cbn [fst].
  destruct (Utf8.decode Utf8.Strict out) as [de|text] eqn:Hdec.
  { eexists _, _; split; [reflexivity|]; split;
      [simpl; by rewrite <- app_assoc | split; [exact Hevs | simpl; lia]]. }
  destruct (split_nonempty LF (Text.strip text)) as (f & fs & Hsp).
  destruct (Hno f). exists b, out, err, text. by rewrite Hsp.
Qed.

(** What happens during the probe of a language whose version command
    answers. *)
Lemma probe_answers_events argv b w :
  let w' :=
    set_returncode (length (returncode w)) 0
      (emit (EvCommunicate (length (returncode w)) None (Some 5%Z))
         (spawned argv server_cwd b w)) in
  exists evs,
    trace w' = trace w ++ evs /\
    Forall (probe_event server_cwd) evs /\ (length evs <= 2)%nat.
Proof.
  eexists. split; [simpl; by rewrite <- app_assoc|].
  split; [by repeat constructor | simpl; lia].
Qed.

(** One turn of the loop: the entry of the language, with its version
    and availability decided by the answer of its version command. *)
Lemma probe_each_turn i key config its acc w argv name tmo :
  config !! lit "version_cmd" = Some (VList argv) ->
  config !! lit "name" = Some name ->
  config !! lit "timeout" = Some tmo ->
  exists version available w' evs,
    probe_each env server_cwd i ((key, config) :: its) acc w =
    probe_each env server_cwd (S i) its
      (acc ++ [{| li_id := Z.of_nat i + 1;
                  li_name := name;
                  li_key := key;
                  li_version := version;
                  li_timeout_seconds := tmo;
                  li_memory_limit_mb := 256;
                  li_available := available |}]) w' /\
    reports env server_cwd argv version available /\
    trace w' = trace w ++ evs /\
    Forall (probe_event server_cwd) evs /\
    (length evs <= 2)%nat.
Proof.
  intros Hvc Hname Htmo.
  destruct (answers_or_not argv) as [[version Ha]|Hno'].
  - destruct (probe_answers config argv version w Hvc Ha) as (b & Hs & Hp).
    destruct (probe_answers_events argv b w) as (evs & Htr & Hevs & Hlen).
    eexists version, true, _, evs. split; [|split; [|split]].
    + cbn [probe_each]. unfold bind at 1. rewrite Hp.
      unfold bind at 1, getitem. rewrite Hname. unfold ret at 1.
      unfold bind at 1. rewrite Htmo. reflexivity.
    + split; [|split]; [|done|discriminate].
      intros v Hv. split; [done|]. exact (answers_functional _ _ _ Ha Hv).
    + exact Htr.
    + by split.
  - destruct (probe_silent config argv w Hvc Hno')
      as (w' & evs & Hp & Htr & Hevs & Hlen).
    eexists (lit "Not available"), false, w', evs.
    split; [|split; [|split]].
    + cbn [probe_each]. unfold bind at 1. rewrite Hp.
      unfold bind at 1, getitem. rewrite Hname. unfold ret at 1.
      unfold bind at 1. rewrite Htmo. reflexivity.
    + split; [|split]; [|discriminate|done].
      intros v Hv. destruct (Hno' _ Hv).
    + exact Htr.
    + by split.
Qed.

End Within.

End ProbeFacts.

Module ListingFacts.
Import CodeExecutor Probe.

Lemma items_unfold :
  items =
  (fun key => (key, default ∅ (languages !! key))) <$> language_keys.
Proof. reflexivity. Qed.

(** The listing, language by language. *)
Lemma listing env server_cwd w :
  exists v1 a1 v2 a2 v3 a3 v4 a4 w' evs,
    get_supported_languages env server_cwd w =
    (Return
       [{| li_id := 1; li_name := VStr (lit "Python"); li_key := lit "python";
           li_version := v1; li_timeout_seconds := VInt 30;
           li_memory_limit_mb := 256; li_available := a1 |};
        {| li_id := 2; li_name := VStr (lit "Java"); li_key := lit "java";
           li_version := v2; li_timeout_seconds := VInt 30;
           li_memory_limit_mb := 256; li_available := a2 |};
        {| li_id := 3; li_name := VStr (lit "C++"); li_key := lit "cpp";
           li_version := v3; li_timeout_seconds := VInt 30;
           li_memory_limit_mb := 256; li_available := a3 |};
        {| li_id := 4; li_name := VStr (lit "JavaScript");
           li_key := lit "javascript";
           li_version := v4; li_timeout_seconds := VInt 30;
           li_memory_limit_mb := 256; li_available := a4 |}], w') /\
    reports env server_cwd [lit "python3"; lit "--version"] v1 a1 /\
    reports env server_cwd [lit "java"; lit "--version"] v2 a2 /\
    reports env server_cwd [lit "g++"; lit "--version"] v3 a3 /\
    reports env server_cwd [lit "node"; lit "--version"] v4 a4 /\
    trace w' = trace w ++ evs /\
    Forall (probe_event server_cwd) evs /\
    (length evs <= 8)%nat.
Proof.
  unfold get_supported_languages. rewrite items_unfold.
  cbn [fmap list_fmap language_keys].
  edestruct (ProbeFacts.probe_each_turn env server_cwd 0 (lit "python"))
    as (v1 & a1 & w1 & e1 & -> & Ha1 & Ht1 & He1 & Hl1);
    [reflexivity..|].
  edestruct (ProbeFacts.probe_each_turn env server_cwd 1 (lit "java"))
    as (v2 & a2 & w2 & e2 & -> & Ha2 & Ht2 & He2 & Hl2);
    [reflexivity..|].
  edestruct (ProbeFacts.probe_each_turn env server_cwd 2 (lit "cpp"))
    as (v3 & a3 & w3 & e3 & -> & Ha3 & Ht3 & He3 & Hl3);
    [reflexivity..|].
  edestruct (ProbeFacts.probe_each_turn env server_cwd 3 (lit "javascript"))
    as (v4 & a4 & w4 & e4 & -> & Ha4 & Ht4 & He4 & Hl4);
    [reflexivity..|].
  exists v1, a1, v2, a2, v3, a3, v4, a4, w4, (e1 ++ e2 ++ e3 ++ e4).
  split; [reflexivity|].
  do 4 (split; [done|]).
  split; [by rewrite Ht4, Ht3, Ht2, Ht1, <- !app_assoc|].
  split; [by repeat apply Forall_app_2|].
  rewrite !length_app. lia.
Qed.

End ListingFacts.

(** X7: [get_supported_languages] answers on every machine: nothing a
    probe meets (a missing binary, a timeout, output that is no UTF-8, a
    cancellation) makes it raise or hang.  It lists the four languages of
    the registry in the order of the dictionary, numbered from 1, each with
    its display name, the default timeout of 30 seconds and the memory
    annotation of 256. *)
Theorem supported_languages_listed env server_cwd w :
  exists l w',
    Probe.get_supported_languages env server_cwd w = (Return l, w') /\
    Probe.li_key <$> l = Probe.language_keys /\
    Probe.li_id <$> l = [1; 2; 3; 4]%Z /\
    Probe.li_name <$> l =
      [VStr (lit "Python"); VStr (lit "Java"); VStr (lit "C++");
       VStr (lit "JavaScript")] /\
    Forall (fun e =>
              Probe.li_timeout_seconds e = VInt 30 /\
              Probe.li_memory_limit_mb e = 256%Z) l.
Proof.
  destruct (ListingFacts.listing env server_cwd w)
    as (v1 & a1 & v2 & a2 & v3 & a3 & v4 & a4 & w' & evs & H & _).
  eexists _, w'. split; [exact H|].
  do 3 (split; [reflexivity|]). by repeat constructor.
Qed.

(** X8: a language whose version command answers (it starts, ends within
    five seconds with the return code [0] and has written UTF-8) is listed
    as available, with the first line of that output, trimmed, as its
    version; a language that is listed as available has a version command
    that answers with the version listed; and a language that is listed as
    not available has the version "Not available" and a version command
    that does not answer. *)
Theorem availability_is_the_answer_of_the_version_command env server_cwd w :
  exists l w',
    Probe.get_supported_languages env server_cwd w = (Return l, w') /\
    Forall (fun e =>
              exists config argv,
                languages !! Probe.li_key e = Some config /\
                config !! lit "version_cmd" = Some (VList argv) /\
                (forall v,
                   Probe.answers env server_cwd argv v ->
                   Probe.li_available e = true /\ Probe.li_version e = v) /\
                (Probe.li_available e = true ->
                 Probe.answers env server_cwd argv (Probe.li_version e)) /\
                (Probe.li_available e = false ->
                 Probe.li_version e = lit "Not available" /\
                 forall v, ¬ Probe.answers env server_cwd argv v)) l.
Proof.
  destruct (ListingFacts.listing env server_cwd w)
    as (v1 & a1 & v2 & a2 & v3 & a3 & v4 & a4 & w' & evs & H
        & Ha1 & Ha2 & Ha3 & Ha4 & _).
  eexists _, w'. split; [exact H|].
  repeat constructor; eexists _, _; cbn [Probe.li_key Probe.li_available
    Probe.li_version]; (split; [reflexivity|]); (split; [reflexivity|]);
    assumption.
Qed.

(** X9: all that [get_supported_languages] does to the machine is to
    start commands in the directory of the server and to wait five seconds
    for each: at most one child per language, no input, no workspace, and
    no child is killed or waited for, not even one that did not answer in
    time. *)
Theorem probes_only_start_and_wait env server_cwd w :
  exists l w',
    Probe.get_supported_languages env server_cwd w = (Return l, w') /\
    Forall (Probe.probe_event server_cwd) (events_since w w') /\
    (length (events_since w w') <= 8)%nat.
Proof.
  destruct (ListingFacts.listing env server_cwd w)
    as (v1 & a1 & v2 & a2 & v3 & a3 & v4 & a4 & w' & evs & H
        & _ & _ & _ & _ & Htr & Hevs & Hlen).
  eexists _, w'. split; [exact H|].
  by rewrite (Steps.trace_events _ _ _ Htr).
Qed.

(** ** The endpoint *)

Module AppFacts.
Import CodeExecutor App.

Lemma or_empty_id s : or_empty s = s.
Proof. by destruct s. Qed.

(** The answer of the endpoint to an invocation that returns. *)
Lemma run_code_returns env language code test_input w r w' :
  execute_code env language code test_input (Some 30%Z) w = (Return r, w') ->
  run_code env language code test_input w = (Return (answer_of r), w').
Proof.
  intros H. unfold run_code, try_except, bind. rewrite H.
  unfold ret, answer_of. by rewrite !or_empty_id.
Qed.

(** The answer of the endpoint to an invocation that raises. *)
Lemma run_code_absorbs env language code test_input w e w' :
  execute_code env language code test_input (Some 30%Z) w = (Raise e, w') ->
  is_Exception e = true ->
  run_code env language code test_input w =
  (Return (list_to_map [(lit "status", lit "error"); (lit "error", e_str e)]),
   w').
Proof.
  intros H He. unfold run_code, try_except, bind. by rewrite H, He.
Qed.


End AppFacts.

(** X10: the endpoint answers a request for an unregistered language with
    the dictionary of an error whose text is "Unsupported language: ..."
    followed by the language: the [ValueError] of the executor does not
    leave the handler, and nothing has happened on the machine. *)
Theorem run_code_reports_unsupported_language env language code test_input w :
  languages !! language = None ->
  App.run_code env language code test_input w =
  (Return (list_to_map
             [(lit "status", lit "error");
              (lit "error", lit "Unsupported language: " ++ language)]), w).
Proof.
  intros H.
  apply (AppFacts.run_code_absorbs _ _ _ _ _
           (mkValueError (lit "Unsupported language: " ++ language)));
    [|reflexivity].
  unfold execute_code. by rewrite H.
Qed.

Lemma run_code_reports_unsupported_language_witness :
  App.run_code Examples.env_cpp (lit "c") (lit "int main(){}") (lit "")
    Examples.w0 =
  (Return (list_to_map
             [(lit "status", lit "error");
              (lit "error", lit "Unsupported language: c")]), Examples.w0).
Proof.
  apply (run_code_reports_unsupported_language Examples.env_cpp (lit "c")).
  reflexivity.
Defined.

(** X11: the endpoint absorbs what [execute_code] lets pass: when the
    workspace cannot be made, its answer is the dictionary of an error
    with [str(e)], and nothing has happened on the machine. *)
Theorem run_code_reports_workspace_failure env language code test_input w e :
  is_Some (languages !! language) ->
  env_mkdtemp env = inl e ->
  is_Exception e = true ->
  App.run_code env language code test_input w =
  (Return (list_to_map [(lit "status", lit "error"); (lit "error", e_str e)]),
   w).
Proof.
  intros [config Hl] Hmk He. apply AppFacts.run_code_absorbs; [|exact He].
  unfold execute_code. rewrite Hl. unfold bind at 1, ret at 1.
  unfold with_as, TemporaryDirectory. by rewrite Hmk.
Qed.

Lemma run_code_reports_workspace_failure_witness :
  App.run_code Examples.env_full (lit "python") (lit "print(42)") (lit "")
    Examples.w0 =
  (Return (list_to_map
             [(lit "status", lit "error");
              (lit "error", e_str Examples.ENOSPC)]), Examples.w0).
Proof.
  apply (run_code_reports_workspace_failure Examples.env_full (lit "python"));
    [by eexists | reflexivity | reflexivity].
Defined.

(** X12: the endpoint reports a program that ended within the thirty
    seconds, and left nothing that blocks the removal of the workspace, as
    a "success", whatever its return code: a non-zero exit shows in the
    [execution_status] only; [output] and [error] are the two streams of
    the program, decoded and trimmed. *)
Theorem run_code_reports_any_exit_as_success env language code test_input w
    d b data rc out err :
  reaches_run_phase env language code test_input d b data ->
  b_within b 30 = true ->
  b_run b (input_bytes test_input data) = Exits rc out err ->
  b_blocks b = None ->
  exists w',
    App.run_code env language code test_input w =
    (Return (list_to_map
               [(lit "status", lit "success");
                (lit "output", text_of out);
                (lit "error", text_of err);
                (lit "execution_status", derive_status false rc)]), w').
Proof.
  intros Hreach Hin Hrun Hb.
  destruct (Steps.execute_code_exits _ _ _ _ 30 w _ _ _ rc out err Hreach)
    as (ms & w' & H); [by repeat split | done |].
  exists w'. rewrite (AppFacts.run_code_returns _ _ _ _ _ _ _ H).
  unfold App.answer_of. cbn [status stdout stderr].
  rewrite Steps.run_status_derive. unfold derive_status.
  by destruct (negb (rc =? 0)%Z).
Qed.

Lemma run_code_reports_any_exit_as_success_witness :
  exists w',
    App.run_code Examples.env_exit_3 (lit "python")
      (lit "print(42); raise SystemExit(3)") (lit "") Examples.w0 =
    (Return (list_to_map
               [(lit "status", lit "success");
                (lit "output", lit "42");
                (lit "error", lit "");
                (lit "execution_status", lit "Runtime Error")]), w').
Proof.
  apply (run_code_reports_any_exit_as_success Examples.env_exit_3
           (lit "python") (lit "print(42); raise SystemExit(3)") (lit "")
           Examples.w0 Examples.tmp
           (Examples.child 3 (blit "42" ++ [x0a]) [] []) [] 3
           (blit "42" ++ [x0a]) []).
  - split; [by eexists|]. split.
    { split; [reflexivity|]. split; [reflexivity|]. eexists. reflexivity. }
    split; [exact I|]. split; reflexivity.
  - reflexivity.
  - reflexivity.
  - reflexivity.
Defined.







(** X16: a program that ends within the thirty seconds, has not removed
    its workspace and leaves in it what makes the removal fail is reported
    by the endpoint as an "error" with the text of the error of the
    removal, whatever the program printed and however it exited; the
    workspace is still there. *)
Theorem run_code_reports_failed_removal env language code test_input w d b
    data rc out err e keep :
  reaches_run_phase env language code test_input d b data ->
  b_within b 30 = true ->
  b_run b (input_bytes test_input data) = Exits rc out err ->
  b_blocks b = Some (e, keep) ->
  survives d b d ->
  is_Exception e = true ->
  exists w',
    App.run_code env language code test_input w =
    (Return (list_to_map
               [(lit "status", lit "error"); (lit "error", e_str e)]), w') /\
    d ∈ fs w'.
Proof.
  intros Hreach Hin Hrun Hb Hsv He.
  destruct (MoreSteps.execute_code_exits_blocked _ _ _ _ 30 w _ _ _ rc out
              err e keep Hreach) as (w' & H & Hd & _);
    [by repeat split | done | done |].
  exists w'. split; [|exact Hd].
  by apply AppFacts.run_code_absorbs.
Qed.

Lemma run_code_reports_failed_removal_witness :
  exists w',
    App.run_code Examples.env_forking (lit "python")
      (lit "import os; os.fork()") (lit "") Examples.w0 =
    (Return (list_to_map
               [(lit "status", lit "error");
                (lit "error", e_str Examples.ENOTEMPTY)]), w') /\
    Examples.tmp ∈ fs w'.
Proof.
  apply (run_code_reports_failed_removal Examples.env_forking (lit "python")
           (lit "import os; os.fork()") (lit "") Examples.w0 Examples.tmp
           Examples.forking [] 0 [] [] Examples.ENOTEMPTY
           [joinpath Examples.tmp (lit "out.log")]).
  - split; [by eexists|]. split.
    { split; [reflexivity|]. split; [reflexivity|]. eexists. reflexivity. }
    split; [exact I|]. split; reflexivity.
  - reflexivity.
  - reflexivity.
  - reflexivity.
  - constructor.
  - reflexivity.
Defined.




